(** * Mission Control: the simulation core, embedded and verified

    A shallow embedding of the three update routines of the "Space Program"
    game:

    - [Research]   : systems/research_system.py
    - [Spacecraft] : systems/spacecraft_system.py
    - [Mission]    : ui/mission_controller.py and models/mission_data.py
    - [Rounded]    : the research tick, the collision test, the statistics
                     of a design and the mission tick once more, with the
                     rounding of every float operation as a parameter

    Conventions of the embedding.

    - A Python [int] is a [Z].  A Python [float] is a rational [Q].  In
      [Research], [Spacecraft] and [Mission] the arithmetic is exact:
      rounding is not modelled there, so a numeric statement about these
      modules is a statement about the arithmetic the code writes down,
      read over the rationals, and results that are only equal up to the
      representation of a fraction are stated with [==].  Where a decision
      of the code hangs on the last digit of a float the statement is made
      about [Rounded] instead, for every rounding function, [binary64]
      among them.
    - A Python [dict] is an insertion-ordered association list with string
      keys ([Dict.t]); iteration order is insertion order, as in Python.
    - A method that mutates [self] is a function from the object to a result
      paired with the object after the call.  Where a method can raise, the
      result is an [outcome]; the object paired with [Raise e] is the object
      as the exception leaves it.
    - [math.log] is a parameter of the spacecraft model; the model only fixes
      when it raises. *)

From Stdlib Require Import QArith Qabs Qminmax ZArith List String Bool Lia Lqa.
From Stdlib Require Import DecimalString.
Import ListNotations.

Open Scope string_scope.
Open Scope Z_scope.
Open Scope Q_scope.

(** ** Python values *)

Abbreviation float := Q (only parsing).

Inductive exn : Type :=
| KeyError
| ZeroDivisionError
| ValueError
| AttributeError.

Inductive outcome (A : Type) : Type :=
| Return (a : A)
| Raise (e : exn).

Arguments Return {A} a.
Arguments Raise {A} e.

Definition bind {A B : Type} (m : outcome A) (k : A -> outcome B) : outcome B :=
  match m with
  | Return a => k a
  | Raise e => Raise e
  end.

Notation "x <- m ;; k" := (bind m (fun x => k))
  (at level 61, m at next level, right associativity).

(** [str(n)] for a non-negative integer. *)
Definition str_of_nat (n : nat) : string :=
  NilZero.string_of_uint (Nat.to_uint n).

(** [x in l] for a list of strings. *)
Definition str_in (x : string) (l : list string) : bool :=
  existsb (String.eqb x) l.

(** Comparisons and the builtins [min], [max] on numbers.  Python's [min]
    and [max] return their first argument unless the second is strictly
    smaller (resp. larger). *)
Module Num.

Definition leb (a b : float) : bool := Qle_bool a b.
Definition ltb (a b : float) : bool := negb (Qle_bool b a).
Definition gtb (a b : float) : bool := ltb b a.
Definition geb (a b : float) : bool := leb b a.
Definition eqb (a b : float) : bool := Qeq_bool a b.

Definition py_min (a b : float) : float := if ltb b a then b else a.
Definition py_max (a b : float) : float := if gtb b a then b else a.

End Num.

(** ** Insertion-ordered dictionaries with string keys *)
Module Dict.

Section Ops.
Context {V : Type}.

Definition t := list (string * V).

Definition empty : t := [].

Fixpoint get (k : string) (d : t) : option V :=
  match d with
  | [] => None
  | (k', v) :: rest => if String.eqb k k' then Some v else get k rest
  end.

(** [k in d] *)
Definition mem (k : string) (d : t) : bool :=
  match get k d with Some _ => true | None => false end.

(** [d[k]], raising [KeyError] on a missing key. *)
Definition getitem (d : t) (k : string) : outcome V :=
  match get k d with Some v => Return v | None => Raise KeyError end.

(** [d.get(k, default)] *)
Definition get_default (d : t) (k : string) (default : V) : V :=
  match get k d with Some v => v | None => default end.

(** [d[k] = v]: an existing key keeps its place, a new key goes last. *)
Fixpoint set (k : string) (v : V) (d : t) : t :=
  match d with
  | [] => [(k, v)]
  | (k', v') :: rest =>
      if String.eqb k k' then (k', v) :: rest else (k', v') :: set k v rest
  end.

(** [del d[k]] (the caller checks membership where Python would raise). *)
Definition del (k : string) (d : t) : t :=
  filter (fun kv => negb (String.eqb k (fst kv))) d.

Definition keys (d : t) : list string := map fst d.
Definition values (d : t) : list V := map snd d.
Definition len (d : t) : nat := List.length d.

(** The keys of a dictionary are pairwise distinct. *)
Definition wf (d : t) : Prop := NoDup (keys d).

End Ops.

Arguments t V : clear implicits.

End Dict.

(** ** systems/research_system.py *)
Module Research.

Record Technology : Type := mkTechnology {
  id : string;
  name : string;
  description : string;
  cost : Z;
  research_time : Z;
  prerequisites : list string;
  category : string;
  level : Z;
  effects : Dict.t float;
  unlocks : list string
}.

(** [Technology.is_available] (the debug prints are dropped). *)
Definition is_available (tech : Technology) (researched_technologies : list string)
  : bool :=
  match prerequisites tech with
  | [] => true
  | _ => forallb (fun prereq => str_in prereq researched_technologies)
                 (prerequisites tech)
  end.

Inductive Status : Type := ACTIVE | PAUSED | COMPLETED.

Record ResearchProject : Type := mkProject {
  technology : Technology;
  progress : float;
  scientists_assigned : Z;
  status : Status
}.

Definition set_progress (p : ResearchProject) (v : float) : ResearchProject :=
  mkProject (technology p) v (scientists_assigned p) (status p).

Definition set_status (p : ResearchProject) (v : Status) : ResearchProject :=
  mkProject (technology p) (progress p) (scientists_assigned p) v.

Definition set_scientists_assigned (p : ResearchProject) (v : Z) : ResearchProject :=
  mkProject (technology p) (progress p) v (status p).

(** The amount added to [progress] by one update of an active project. *)
Definition progress_increase (p : ResearchProject) (efficiency : float) : float :=
  (inject_Z (scientists_assigned p) * efficiency)
  / inject_Z (research_time (technology p)).

(** [ResearchProject.update_progress].  The division raises when
    [research_time] is zero. *)
Definition update_progress (p : ResearchProject) (efficiency : float)
  : outcome bool * ResearchProject :=
  match status p with
  | ACTIVE =>
      if Z.eqb (research_time (technology p)) 0 then (Raise ZeroDivisionError, p)
      else
        let p1 :=
          set_progress p
            (Num.py_min 100 (progress p + progress_increase p efficiency)) in
        if Num.geb (progress p1) 100
        then (Return true, set_status p1 COMPLETED)
        else (Return false, p1)
  | _ => (Return false, p)
  end.

Record ResearchSystem : Type := mkSystem {
  technologies : Dict.t Technology;
  active_projects : Dict.t ResearchProject;
  researched_technologies : list string;
  available_scientists : Z;
  research_points : Z;
  efficiency : float
}.

(** The two technologies of [load_technologies]. *)
Definition BASIC_ROCKETRY : Technology :=
  mkTechnology "BASIC_ROCKETRY" "Basic Rocketry"
    "Fundamentos de la ingeniería de cohetes"
    100 5 [] "PROPULSION" 1 [("thrust_efficiency", 1.1)] ["LIQUID_FUEL"].

Definition LIQUID_FUEL : Technology :=
  mkTechnology "LIQUID_FUEL" "Liquid Fuel Systems"
    "Sistemas avanzados de combustible líquido"
    200 10 ["BASIC_ROCKETRY"] "PROPULSION" 2 [("fuel_efficiency", 1.2)]
    ["ADVANCED_PROPULSION"].

Definition basic_techs : Dict.t Technology :=
  Dict.set "LIQUID_FUEL" LIQUID_FUEL
    (Dict.set "BASIC_ROCKETRY" BASIC_ROCKETRY Dict.empty).

(** [ResearchSystem.__init__] *)
Definition init : ResearchSystem :=
  mkSystem basic_techs Dict.empty [] 10 1000 1.0.

(** [ResearchSystem.start_research] *)
Definition start_research (s : ResearchSystem) (tech_id : string) (scientists : Z)
  : bool * ResearchSystem :=
  match Dict.get tech_id (technologies s) with
  | None => (false, s)
  | Some tech =>
      if negb (is_available tech (researched_technologies s)) then (false, s)
      else if str_in tech_id (researched_technologies s) then (false, s)
      else if Z.gtb scientists (available_scientists s) then (false, s)
      else if Z.gtb (cost tech) (research_points s) then (false, s)
      else
        (true,
         mkSystem (technologies s)
           (Dict.set tech_id (mkProject tech 0 scientists ACTIVE)
              (active_projects s))
           (researched_technologies s)
           (available_scientists s - scientists)%Z
           (research_points s - cost tech)%Z
           (efficiency s))
  end.

(** The loop of [update_research] over [active_projects.items()].  The
    projects are updated in place, so the dictionary keeps its keys and
    order; [researched], [available] and [completed] are the three pieces of
    state the loop body writes.  A raise stops the loop where it is. *)
Record loop_state : Type := mkLoop {
  l_projects : Dict.t ResearchProject;
  l_researched : list string;
  l_available : Z;
  l_completed : list string
}.

Fixpoint update_loop (eff : float) (items : Dict.t ResearchProject)
    (researched : list string) (available : Z) (completed : list string)
  : outcome unit * loop_state :=
  match items with
  | [] => (Return tt, mkLoop [] researched available completed)
  | (tech_id, project) :: rest =>
      match update_progress project eff with
      | (Raise e, project') =>
          (Raise e, mkLoop ((tech_id, project') :: rest)
                      researched available completed)
      | (Return true, project') =>
          let researched' :=
            if str_in tech_id researched then researched
            else (researched ++ [tech_id])%list in
          let '(r, st) :=
            update_loop eff rest researched'
              (available + scientists_assigned project')%Z
              (completed ++ [tech_id])%list in
          (r, mkLoop ((tech_id, project') :: l_projects st)
                (l_researched st) (l_available st) (l_completed st))
      | (Return false, project') =>
          let '(r, st) := update_loop eff rest researched available completed in
          (r, mkLoop ((tech_id, project') :: l_projects st)
                (l_researched st) (l_available st) (l_completed st))
      end
  end.

(** The second loop: [del self.active_projects[tech_id]] for every completed
    id still present. *)
Definition delete_completed (completed : list string) (d : Dict.t ResearchProject)
  : Dict.t ResearchProject :=
  fold_left (fun acc tech_id => if Dict.mem tech_id acc then Dict.del tech_id acc else acc)
            completed d.

(** [ResearchSystem.update_research] *)
Definition update_research (s : ResearchSystem)
  : outcome (list string) * ResearchSystem :=
  let '(r, st) :=
    update_loop (efficiency s) (active_projects s)
      (researched_technologies s) (available_scientists s) [] in
  match r with
  | Raise e =>
      (Raise e,
       mkSystem (technologies s) (l_projects st) (l_researched st)
         (l_available st) (research_points s) (efficiency s))
  | Return _ =>
      (Return (l_completed st),
       mkSystem (technologies s)
         (delete_completed (l_completed st) (l_projects st))
         (l_researched st) (l_available st) (research_points s) (efficiency s))
  end.

(** [ResearchSystem.pause_research] *)
Definition pause_research (s : ResearchSystem) (tech_id : string)
  : bool * ResearchSystem :=
  match Dict.get tech_id (active_projects s) with
  | Some project =>
      (true,
       mkSystem (technologies s)
         (Dict.set tech_id
            (set_scientists_assigned (set_status project PAUSED) 0)
            (active_projects s))
         (researched_technologies s)
         (available_scientists s + scientists_assigned project)%Z
         (research_points s) (efficiency s))
  | None => (false, s)
  end.

(** [ResearchSystem.resume_research] *)
Definition resume_research (s : ResearchSystem) (tech_id : string) (scientists : Z)
  : bool * ResearchSystem :=
  match Dict.get tech_id (active_projects s) with
  | Some project =>
      if Z.leb scientists (available_scientists s) then
        (true,
         mkSystem (technologies s)
           (Dict.set tech_id
              (set_scientists_assigned (set_status project ACTIVE) scientists)
              (active_projects s))
           (researched_technologies s)
           (available_scientists s - scientists)%Z
           (research_points s) (efficiency s))
      else (false, s)
  | None => (false, s)
  end.

(** [ResearchSystem.get_available_technologies] *)
Definition get_available_technologies (s : ResearchSystem) : list Technology :=
  map snd
    (filter
       (fun kv =>
          is_available (snd kv) (researched_technologies s)
          && negb (str_in (fst kv) (researched_technologies s)))
       (technologies s)).

(** [ResearchSystem.is_technology_researched] *)
Definition is_technology_researched (s : ResearchSystem) (tech_id : string) : bool :=
  str_in tech_id (researched_technologies s).

(** [ResearchSystem.get_research_progress] *)
Definition get_research_progress (s : ResearchSystem) (tech_id : string)
  : option float :=
  match Dict.get tech_id (active_projects s) with
  | Some project => Some (progress project)
  | None => None
  end.

(** Scientists accounted for by a system: the idle pool plus those assigned
    to the projects in [active_projects]. *)
Definition assigned_total (d : Dict.t ResearchProject) : Z :=
  fold_right (fun kv acc => (scientists_assigned (snd kv) + acc)%Z) 0%Z d.

Definition total_scientists (s : ResearchSystem) : Z :=
  (available_scientists s + assigned_total (active_projects s))%Z.

(** The calls a client can make, and the run of a sequence of them. *)
Inductive call : Type :=
| StartResearch (tech_id : string) (scientists : Z)
| UpdateResearch
| PauseResearch (tech_id : string)
| ResumeResearch (tech_id : string) (scientists : Z).

Definition step (s : ResearchSystem) (c : call) : ResearchSystem :=
  match c with
  | StartResearch tech_id n => snd (start_research s tech_id n)
  | UpdateResearch => snd (update_research s)
  | PauseResearch tech_id => snd (pause_research s tech_id)
  | ResumeResearch tech_id n => snd (resume_research s tech_id n)
  end.

Definition run (s : ResearchSystem) (calls : list call) : ResearchSystem :=
  fold_left step calls s.

End Research.

(** ** systems/spacecraft_system.py *)
Module Spacecraft.

(** The subclasses of [ComponentSpec] with their own fields; [Plain] is a
    bare [ComponentSpec].  [isinstance] tests become matches on [variant]. *)
Inductive Variant : Type :=
| Plain
| Propulsion (thrust isp : float) (fuel_type : string) (fuel_consumption : float)
| Power (power_output efficiency : float)
| Storage (volume max_mass : float) (contents_type : string)
| Control (control_power redundancy : float)
| LifeSupport (crew_capacity : Z) (oxygen_generation water_recycling : float).

Record ComponentSpec : Type := mkComponent {
  id : string;
  name : string;
  description : string;
  mass : float;
  cost : float;
  power_required : float;
  tech_requirement : string;
  category : string;
  size : Dict.t float;
  reliability : float;
  variant : Variant
}.

Record SpacecraftDesign : Type := mkDesign {
  design_name : string;
  components : Dict.t ComponentSpec;
  layout : Dict.t (Dict.t float);
  _mass : float;
  _cost : float;
  _power_balance : float;
  _delta_v : float;
  _reliability : float
}.

(** [SpacecraftDesign.__init__] *)
Definition new_design (name : string) : SpacecraftDesign :=
  mkDesign name Dict.empty Dict.empty 0 0 0 0 0.

(** One axis of [_components_overlap]: [Return true] when the two intervals
    are not separated on [axis].  [or] evaluates its right operand only when
    the left one is false. *)
Definition axis_overlap (axis : string) (size1 pos1 size2 pos2 : Dict.t float)
  : outcome bool :=
  p1 <- Dict.getitem pos1 axis ;;
  s1 <- Dict.getitem size1 axis ;;
  p2 <- Dict.getitem pos2 axis ;;
  if Num.ltb (p1 + s1) p2 then Return false
  else
    p1' <- Dict.getitem pos1 axis ;;
    p2' <- Dict.getitem pos2 axis ;;
    s2 <- Dict.getitem size2 axis ;;
    Return (negb (Num.gtb p1' (p2' + s2))).

(** The loop of [_components_overlap] over a list of axes: it returns [True]
    at the first axis on which the intervals are not separated. *)
Fixpoint overlap_loop (axes : list string) (size1 pos1 size2 pos2 : Dict.t float)
  : outcome bool :=
  match axes with
  | [] => Return false
  | axis :: rest =>
      b <- axis_overlap axis size1 pos1 size2 pos2 ;;
      if b then Return true else overlap_loop rest size1 pos1 size2 pos2
  end.

(** [SpacecraftDesign._components_overlap] *)
Definition _components_overlap (size1 pos1 size2 pos2 : Dict.t float)
  : outcome bool :=
  overlap_loop ["x"; "y"; "z"] size1 pos1 size2 pos2.

(** The loop of [_check_collision] over [components.items()]. *)
Fixpoint collision_loop (items : Dict.t ComponentSpec) (lay : Dict.t (Dict.t float))
    (new_component : ComponentSpec) (position : Dict.t float) : outcome bool :=
  match items with
  | [] => Return false
  | (comp_id, comp) :: rest =>
      other_pos <- Dict.getitem lay comp_id ;;
      b <- _components_overlap (size new_component) position (size comp) other_pos ;;
      if b then Return true else collision_loop rest lay new_component position
  end.

(** [SpacecraftDesign._check_collision] *)
Definition _check_collision (d : SpacecraftDesign) (new_component : ComponentSpec)
    (position : Dict.t float) : outcome bool :=
  collision_loop (components d) (layout d) new_component position.

(** First loop of [_update_statistics]: mass, cost, power balance and
    reliability, accumulated component by component. *)
Record base_stats : Type := mkBase {
  b_mass : float;
  b_cost : float;
  b_power_balance : float;
  b_reliability : float
}.

Definition base_step (acc : base_stats) (component : ComponentSpec) : base_stats :=
  let pb := b_power_balance acc - power_required component in
  mkBase (b_mass acc + mass component)
         (b_cost acc + cost component)
         (match variant component with
          | Power power_output _ => pb + power_output
          | _ => pb
          end)
         (b_reliability acc * reliability component).

Definition base_loop (comps : list ComponentSpec) : base_stats :=
  fold_left base_step comps (mkBase 0 0 0 1.0).

(** Second loop of [_update_statistics]: fuel, thrust, summed isp and the
    number of engines. *)
Record engine_stats : Type := mkEngine {
  total_fuel : float;
  total_thrust : float;
  avg_isp : float;
  num_engines : Z
}.

Definition engine_step (acc : engine_stats) (component : ComponentSpec)
  : engine_stats :=
  match variant component with
  | Propulsion thrust isp _ _ =>
      mkEngine (total_fuel acc) (total_thrust acc + thrust) (avg_isp acc + isp)
               (num_engines acc + 1)%Z
  | Storage _ max_mass contents_type =>
      if String.eqb contents_type "FUEL"
      then mkEngine (total_fuel acc + max_mass) (total_thrust acc) (avg_isp acc)
                    (num_engines acc)
      else acc
  | _ => acc
  end.

Definition engine_loop (comps : list ComponentSpec) : engine_stats :=
  fold_left engine_step comps (mkEngine 0 0 0 0%Z).

Section WithLog.

(** [math.log] on a positive argument. *)
Variable log : float -> float.

(** [math.log x]: a [ValueError] for [x <= 0]. *)
Definition math_log (x : float) : outcome float :=
if Num.leb x 0 then Raise ValueError else Return (log x).

(** [a / b], a [ZeroDivisionError] for [b = 0]. *)
Definition truediv (a b : float) : outcome float :=
if Num.eqb b 0 then Raise ZeroDivisionError else Return (a / b).

(** The delta-v block of [_update_statistics]: [None] when the guard
  [num_engines > 0 and total_fuel > 0] fails and [_delta_v] is left as it
  is. *)
Definition tsiolkovsky (m : float) (e : engine_stats) : option (outcome float) :=
if Z.gtb (num_engines e) 0 && Num.gtb (total_fuel e) 0 then
  Some (let avg := avg_isp e / inject_Z (num_engines e) in
        let dry_mass := m - total_fuel e in
        ratio <- truediv m dry_mass ;;
        l <- math_log ratio ;;
        Return (avg * 9.81 * l))
else None.

(** [SpacecraftDesign._update_statistics].  The four base statistics are
  assigned before the delta-v block runs, so they are in place also when
  that block raises. *)
Definition _update_statistics (d : SpacecraftDesign)
: outcome unit * SpacecraftDesign :=
let b := base_loop (Dict.values (components d)) in
let e := engine_loop (Dict.values (components d)) in
let with_dv v :=
  mkDesign (design_name d) (components d) (layout d)
    (b_mass b) (b_cost b) (b_power_balance b) v (b_reliability b) in
match tsiolkovsky (b_mass b) e with
| None => (Return tt, with_dv (_delta_v d))
| Some (Return v) => (Return tt, with_dv v)
| Some (Raise ex) => (Raise ex, with_dv (_delta_v d))
end.

Definition with_parts (d : SpacecraftDesign) (comps : Dict.t ComponentSpec)
  (lay : Dict.t (Dict.t float)) : SpacecraftDesign :=
mkDesign (design_name d) comps lay
  (_mass d) (_cost d) (_power_balance d) (_delta_v d) (_reliability d).

(** [SpacecraftDesign.add_component] *)
Definition add_component (d : SpacecraftDesign) (component : ComponentSpec)
  (position : Dict.t float) : outcome bool * SpacecraftDesign :=
match _check_collision d component position with
| Raise ex => (Raise ex, d)
| Return true => (Return false, d)
| Return false =>
    let component_id :=
      String.append (id component)
        (String.append "_" (str_of_nat (Dict.len (components d)))) in
    let d1 :=
      with_parts d (Dict.set component_id component (components d))
                   (Dict.set component_id position (layout d)) in
    match _update_statistics d1 with
    | (Return _, d2) => (Return true, d2)
    | (Raise ex, d2) => (Raise ex, d2)
    end
end.

(** [SpacecraftDesign.remove_component] *)
Definition remove_component (d : SpacecraftDesign) (component_id : string)
: outcome bool * SpacecraftDesign :=
if Dict.mem component_id (components d) then
  let comps := Dict.del component_id (components d) in
  if Dict.mem component_id (layout d) then
    let d1 := with_parts d comps (Dict.del component_id (layout d)) in
    match _update_statistics d1 with
    | (Return _, d2) => (Return true, d2)
    | (Raise ex, d2) => (Raise ex, d2)
    end
  else (Raise KeyError, with_parts d comps (layout d))
else (Return false, d).

End WithLog.

(** [SpacecraftDesign.get_summary] *)
Definition get_summary (d : SpacecraftDesign) : Dict.t float :=
  [("mass", _mass d);
   ("cost", _cost d);
   ("power_balance", _power_balance d);
   ("delta_v", _delta_v d);
   ("reliability", _reliability d);
   ("component_count", inject_Z (Z.of_nat (Dict.len (components d))))].

(** The catalog of [ComponentLibrary._load_default_components]. *)
Definition BASIC_ANTENNA : ComponentSpec :=
  mkComponent "BASIC_ANTENNA" "Basic Antenna"
    "Simple communication antenna for short-range transmission"
    10 500 0.1 "" "CONTROL" [("x", 0.5); ("y", 0.5); ("z", 1)] 0.98
    (Control 0.5 0.0).

Definition BASIC_RADIO : ComponentSpec :=
  mkComponent "BASIC_RADIO" "Basic Radio"
    "Basic communication radio for mission control contact"
    5 300 0.2 "" "CONTROL" [("x", 0.3); ("y", 0.3); ("z", 0.3)] 0.99
    (Control 0.3 0.0).

Definition BASIC_ENGINE : ComponentSpec :=
  mkComponent "BASIC_ENGINE" "Basic Rocket Engine"
    "Simple liquid fuel rocket engine"
    1000 10000 10 "BASIC_ROCKETRY" "PROPULSION" [("x", 2); ("y", 2); ("z", 3)] 0.95
    (Propulsion 100 280 "LIQUID" 0.5).

Definition BASIC_TANK : ComponentSpec :=
  mkComponent "BASIC_TANK" "Basic Fuel Tank"
    "Standard fuel tank"
    500 5000 0 "BASIC_ROCKETRY" "STORAGE" [("x", 2); ("y", 2); ("z", 4)] 0.98
    (Storage 10 10000 "FUEL").

Definition SOLAR_PANEL : ComponentSpec :=
  mkComponent "SOLAR_PANEL" "Basic Solar Panel"
    "Standard solar power generation"
    100 15000 0 "LIQUID_FUEL" "POWER" [("x", 4); ("y", 0.1); ("z", 2)] 0.96
    (Power 5 0.20).

Definition BASIC_COMPUTER : ComponentSpec :=
  mkComponent "BASIC_COMPUTER" "Basic Flight Computer"
    "Standard guidance system"
    50 20000 0.5 "BASIC_ROCKETRY" "CONTROL" [("x", 0.5); ("y", 0.5); ("z", 0.5)] 0.99
    (Control 1.0 0.5).

Definition catalog : Dict.t ComponentSpec :=
  [("BASIC_ANTENNA", BASIC_ANTENNA); ("BASIC_RADIO", BASIC_RADIO);
   ("BASIC_ENGINE", BASIC_ENGINE); ("BASIC_TANK", BASIC_TANK);
   ("SOLAR_PANEL", SOLAR_PANEL); ("BASIC_COMPUTER", BASIC_COMPUTER)].

(** A position dictionary [{'x': px, 'y': py, 'z': pz}]. *)
Definition at_xyz (px py pz : float) : Dict.t float :=
  [("x", px); ("y", py); ("z", pz)].

(** [ComponentLibrary.get_available_components]: the entries of the library
    without a technology requirement or whose requirement is researched,
    written one by one into a new dictionary. *)
Definition unlocked (researched_techs : list string) (comp : ComponentSpec) : bool :=
  String.eqb (tech_requirement comp) "" || str_in (tech_requirement comp) researched_techs.

Definition get_available_components (library : Dict.t ComponentSpec)
    (researched_techs : list string) : Dict.t ComponentSpec :=
  fold_left
    (fun available kv =>
       if unlocked researched_techs (snd kv)
       then Dict.set (fst kv) (snd kv) available
       else available)
    library Dict.empty.

(** [ComponentLibrary.get_component_by_id] *)
Definition get_component_by_id (library : Dict.t ComponentSpec)
    (component_id : string) : option ComponentSpec :=
  Dict.get component_id library.

(** [SpacecraftFactory]: its library and designs.  The research system it
    refers to is shared with the research panel, so it is passed to the
    methods that read it. *)
Record SpacecraftFactory : Type := mkFactory {
  component_library : Dict.t ComponentSpec;
  designs : Dict.t SpacecraftDesign
}.

(** [SpacecraftFactory.__init__] *)
Definition new_factory : SpacecraftFactory := mkFactory catalog Dict.empty.

(** [SpacecraftFactory.create_design] *)
Definition create_design (f : SpacecraftFactory) (name : string)
  : SpacecraftDesign * SpacecraftFactory :=
  let design := new_design name in
  (design, mkFactory (component_library f) (Dict.set name design (designs f))).

(** [SpacecraftFactory.get_available_components] *)
Definition factory_available_components (f : SpacecraftFactory)
    (research_system : Research.ResearchSystem) : Dict.t ComponentSpec :=
  get_available_components (component_library f)
    (Research.researched_technologies research_system).

(** The position [SpacecraftDesignerPanel._add_component_to_design] builds
    from the canvas coordinates of a dropped component: 20 pixels to the
    metre, and no depth. *)
Definition designer_position (cx cy : float) : Dict.t float :=
  [("x", cx / 20); ("y", 0); ("z", cy / 20)].

(** [SpacecraftDesignerPanel._add_component_to_design], without the canvas:
    nothing happens when there is no current design. *)
Definition _add_component_to_design (log : float -> float)
    (current_design : option SpacecraftDesign) (component : ComponentSpec)
    (cx cy : float) : option (outcome bool * SpacecraftDesign) :=
  match current_design with
  | Some d => Some (add_component log d component (designer_position cx cy))
  | None => None
  end.

End Spacecraft.

(** ** models/mission_data.py and ui/mission_controller.py *)
Module Mission.

Record MissionData : Type := mkData {
  altitude : float;
  velocity : float;
  fuel : float;
  orbit_status : string;
  stage : Z;
  thrust : float;
  orientation : float;
  temperature : float;
  battery : float;
  comms : bool
}.

(** [MissionData.create_default] *)
Definition create_default : MissionData :=
  mkData 0 0 100 "PRE-LAUNCH" 1 0 90 20 100 true.

(** The controller without its widgets.  Of the presentation layer only the
    control panel's event log is kept ([event_log], written by [log_event]
    and emptied by [clear_log]); [update_timer] records whether a timer id
    is stored.  The telemetry and orbit displays hold no simulation state;
    of the orbit display the model keeps the one call that cannot succeed
    ([clear_trajectory]). *)
Record MissionController : Type := mkController {
  mission_active : bool;
  mission_time : Z;
  anomaly_chance : float;
  target_altitude : float;
  target_velocity : float;
  mission_data : MissionData;
  systems : Dict.t bool;
  update_timer : bool;
  event_log : list (string * string)
}.

(** [MissionController.__init__] *)
Definition init : MissionController :=
  mkController false 0 0.01 300 7.8 create_default
    [("PROP", true); ("GUID", true); ("ELEC", true);
     ("COMM", true); ("LIFE", true); ("THRM", true)]
    false [].

Definition log_event (s : MissionController) (message level : string)
  : MissionController :=
  mkController (mission_active s) (mission_time s) (anomaly_chance s)
    (target_altitude s) (target_velocity s) (mission_data s) (systems s)
    (update_timer s) (event_log s ++ [(message, level)])%list.

Definition with_data (s : MissionController) (m : MissionData) : MissionController :=
  mkController (mission_active s) (mission_time s) (anomaly_chance s)
    (target_altitude s) (target_velocity s) m (systems s)
    (update_timer s) (event_log s).

(** The entries of the [stage_factors] table. *)
Record factors : Type := mkFactors {
  f_altitude : float;
  f_velocity : float;
  f_fuel : float
}.

Definition stage_factors : list (Z * factors) :=
  [(1%Z, mkFactors 0.1 0.05 0.2);
   (2%Z, mkFactors 0.05 0.1 0.1)].

Fixpoint stage_get (k : Z) (table : list (Z * factors)) : option factors :=
  match table with
  | [] => None
  | (k', f) :: rest => if Z.eqb k k' then Some f else stage_get k rest
  end.

(** [stage_factors.get(stage, stage_factors[1])] *)
Definition factors_of (stg : Z) : factors :=
  match stage_get stg stage_factors with
  | Some f => f
  | None =>
      match stage_get 1%Z stage_factors with
      | Some f => f
      | None => mkFactors 0 0 0
      end
  end.

(** [MissionController._update_physics], on the mission data it mutates. *)
Definition physics (m : MissionData) : MissionData :=
  let f := factors_of (stage m) in
  let altitude1 := altitude m + thrust m * f_altitude f in
  let velocity1 := velocity m + thrust m * f_velocity f in
  let fuel1 := fuel m - thrust m * f_fuel f in
  let velocity2 := if Num.ltb altitude1 100 then velocity1 - 0.01 else velocity1 in
  let battery1 := battery m - 0.01 in
  let temperature1 :=
    if Num.gtb (thrust m) 50 then temperature m + 0.1
    else Num.py_max 20 (temperature m - 0.05) in
  mkData altitude1 velocity2 fuel1 (orbit_status m) (stage m) (thrust m)
    (orientation m) temperature1 battery1 (comms m).

Definition _update_physics (s : MissionController) : MissionController :=
  with_data s (physics (mission_data s)).

Definition anomaly_types : list (string * string * string) :=
  [("PROP", "Propulsion system fluctuation detected", "WARNING");
   ("GUID", "Guidance system interference detected", "WARNING");
   ("ELEC", "Power system voltage irregularity", "WARNING");
   ("COMM", "Communication signal degradation", "WARNING");
   ("LIFE", "Life support minor pressure variance", "WARNING");
   ("THRM", "Thermal control deviation detected", "WARNING")].

(** [MissionController._check_anomalies].  [r] is the value drawn by
    [random.random()] and [pick] the index drawn by [random.choice]. *)
Definition _check_anomalies (s : MissionController) (r : float) (pick : nat)
  : MissionController :=
  if Num.ltb r (anomaly_chance s) then
    let '(sys, message, level) :=
      nth (pick mod 6) anomaly_types ("PROP", "", "WARNING") in
    log_event
      (mkController (mission_active s) (mission_time s) (anomaly_chance s)
         (target_altitude s) (target_velocity s) (mission_data s)
         (Dict.set sys false (systems s)) (update_timer s) (event_log s))
      message level
  else s.

(** [self.orbit_display.clear_trajectory()].  The class [OrbitDisplay] of
    ui/orbit_display.py defines [_create_display], [_create_legend],
    [_draw_grid], [_draw_earth], [_calculate_spacecraft_position] and
    [update_display], and no [clear_trajectory]: looking the attribute up
    raises AttributeError. *)
Definition clear_trajectory : outcome unit := Raise AttributeError.

(** [self.control_panel.clear_log()] *)
Definition clear_log (s : MissionController) : MissionController :=
  mkController (mission_active s) (mission_time s) (anomaly_chance s)
    (target_altitude s) (target_velocity s) (mission_data s) (systems s)
    (update_timer s) [].

(** [MissionController.reset_mission].  The clock, the data and the system
    flags are written before the displays are cleared; the call of
    [clear_trajectory] comes before [clear_log] and the closing log entry,
    so an exception there leaves the event log as it was. *)
Definition reset_mission (s : MissionController)
  : outcome unit * MissionController :=
  let s1 :=
    mkController (mission_active s) 0 (anomaly_chance s)
      (target_altitude s) (target_velocity s) create_default
      (map (fun kv => (fst kv, true)) (systems s))
      (update_timer s) (event_log s) in
  match clear_trajectory with
  | Raise e => (Raise e, s1)
  | Return _ =>
      (Return tt, log_event (clear_log s1) "MISSION RESET COMPLETE" "INFO")
  end.

(** [MissionController.abort_mission] *)
Definition abort_mission (s : MissionController)
  : outcome unit * MissionController :=
  if mission_active s then
    reset_mission
      (log_event
         (mkController false (mission_time s) (anomaly_chance s)
            (target_altitude s) (target_velocity s) (mission_data s)
            (systems s) (update_timer s) (event_log s))
         "MISSION ABORT COMMANDED" "ERROR")
  else (Return tt, s).

(** [MissionController._check_mission_status] *)
Definition _check_mission_status (s : MissionController)
  : outcome unit * MissionController :=
  if Num.leb (fuel (mission_data s)) 0 then
    abort_mission (log_event s "CRITICAL: Fuel depleted" "ERROR")
  else
    let s1 :=
      if Num.leb (battery (mission_data s)) 10
      then log_event s "WARNING: Low battery" "WARNING"
      else s in
    if Num.gtb (temperature (mission_data s1)) 100 then
      abort_mission (log_event s1 "CRITICAL: Temperature critical" "ERROR")
    else if Num.ltb (Qabs (altitude (mission_data s1) - target_altitude s1)) 10
            && Num.ltb (Qabs (velocity (mission_data s1) - target_velocity s1)) 0.1
    then (Return tt, log_event s1 "SUCCESS: Target orbit achieved!" "SUCCESS")
    else (Return tt, s1).

(** [MissionController.update_mission]: one timer tick.  An exception of
    the status check leaves the tick before the next one is scheduled. *)
Definition update_mission (s : MissionController) (r : float) (pick : nat)
  : outcome unit * MissionController :=
  if negb (mission_active s) then (Return tt, s)
  else
    let s1 :=
      mkController (mission_active s) (mission_time s + 1) (anomaly_chance s)
        (target_altitude s) (target_velocity s) (mission_data s) (systems s)
        (update_timer s) (event_log s) in
    let s2 := _update_physics s1 in
    let s3 := _check_anomalies s2 r pick in
    match _check_mission_status s3 with
    | (Raise e, s4) => (Raise e, s4)
    | (Return _, s4) =>
        (Return tt,
         if mission_active s4 then
           mkController (mission_active s4) (mission_time s4) (anomaly_chance s4)
             (target_altitude s4) (target_velocity s4) (mission_data s4)
             (systems s4) true (event_log s4)
         else s4)
    end.

(** [MissionController.start_mission] *)
Definition start_mission (s : MissionController) (r : float) (pick : nat)
  : outcome unit * MissionController :=
  if negb (mission_active s) then
    update_mission
      (log_event
         (mkController true (mission_time s) (anomaly_chance s)
            (target_altitude s) (target_velocity s) (mission_data s)
            (systems s) (update_timer s) (event_log s))
         "MISSION STARTED - T PLUS ZERO" "INFO")
      r pick
  else (Return tt, s).

(** [MissionController.adjust_thrust] (the logged text is left unformatted) *)
Definition adjust_thrust (s : MissionController) (delta : float)
  : MissionController :=
  if mission_active s then
    let m := mission_data s in
    log_event
      (with_data s
         (mkData (altitude m) (velocity m) (fuel m) (orbit_status m) (stage m)
            (Num.py_max 0 (Num.py_min 100 (thrust m + delta)))
            (orientation m) (temperature m) (battery m) (comms m)))
      "THRUST ADJUSTED" "INFO"
  else s.

(** [MissionController.next_stage] (the logged text is left unformatted).
    The stage is advanced and the separation logged before
    [clear_trajectory] is called. *)
Definition next_stage (s : MissionController)
  : outcome unit * MissionController :=
  if mission_active s && Z.ltb (stage (mission_data s)) 2 then
    let m := mission_data s in
    let s1 :=
      log_event
        (with_data s
           (mkData (altitude m) (velocity m) (fuel m) (orbit_status m)
              (stage m + 1) (thrust m) (orientation m) (temperature m)
              (battery m) (comms m)))
        "STAGE SEPARATION CONFIRMED" "SUCCESS" in
    match clear_trajectory with
    | Raise e => (Raise e, s1)
    | Return _ => (Return tt, s1)
    end
  else (Return tt, s).

End Mission.

(** ** Floats, rounded

    The three modules above compute with exact rationals.  Python computes
    each float operation exactly and rounds the result to the nearest
    binary64 number; a decimal literal and an [int] met by a float are
    rounded in the same way.  [Rounded] writes the routines whose decisions
    hang on the last digit a second time: the research tick, the collision
    test and the statistics of a design, and the mission tick.  The rounding is a parameter
    [round], applied wherever the code computes a float; what is proved for
    every [round] holds of the exact model above, which is the case of the
    identity, and of the code, which is the case of [binary64] as long as
    no result leaves the range of the finite floats.  Python computes with
    an [int] exactly until it meets a float; [binary64] leaves every
    integer below [2^53] as it is, so the sums of integer masses and costs
    are the same either way. *)
Module Rounded.

(** The integer nearest to [q], the even one of two that are equally near. *)
Definition round_half_even (q : Q) : Z :=
  let n := Qnum q in
  let d := Zpos (Qden q) in
  let f := (n / d)%Z in
  match (2 * (n - f * d) ?= d)%Z with
  | Lt => f
  | Gt => (f + 1)%Z
  | Eq => if Z.even f then f else (f + 1)%Z
  end.

Definition pow2 (e : Z) : Q := Qpower 2 e.

(** The [e] with [2^e <= q < 2^(e+1)], for a positive [q]. *)
Definition exponent (q : Q) : Z :=
  let e := (Z.log2 (Qnum q) - Z.log2 (Zpos (Qden q)))%Z in
  if Qle_bool (pow2 e) q then e else (e - 1)%Z.

(** Rounding to the nearest binary64 number, ties to even: 53 significant
    bits, and no bit below [2^-1074]. *)
Definition binary64 (q : Q) : Q :=
  if Qeq_bool q 0 then 0
  else
    let a := Qabs q in
    let ulp := pow2 (Z.max (exponent a - 52) (-1074)) in
    let m := inject_Z (round_half_even (a / ulp)) * ulp in
    Qred (if Qle_bool 0 q then m else - m).

(** No rounding at all. *)
Definition exact (q : Q) : Q := q.

Section Rounding.

Variable round : Q -> Q.

(** [float(n)], the four operations, and a decimal literal of the source. *)
Definition of_int (n : Z) : float := round (inject_Z n).
Definition add (a b : float) : float := round (a + b).
Definition sub (a b : float) : float := round (a - b).
Definition mul (a b : float) : float := round (a * b).
Definition div (a b : float) : float := round (a / b).
Definition literal (q : Q) : float := round q.

(** *** systems/research_system.py *)

Import Research.

Definition progress_increase (p : ResearchProject) (efficiency : float) : float :=
  div (mul (of_int (scientists_assigned p)) efficiency)
      (of_int (research_time (technology p))).

(** [ResearchProject.update_progress].  An [int] converts to the float 0.0
    only when it is 0, so the division raises for a zero [research_time]
    as in the exact model. *)
Definition update_progress (p : ResearchProject) (efficiency : float)
  : outcome bool * ResearchProject :=
  match status p with
  | ACTIVE =>
      if Z.eqb (research_time (technology p)) 0 then (Raise ZeroDivisionError, p)
      else
        let p1 :=
          set_progress p
            (Num.py_min 100 (add (progress p) (progress_increase p efficiency))) in
        if Num.geb (progress p1) 100
        then (Return true, set_status p1 COMPLETED)
        else (Return false, p1)
  | _ => (Return false, p)
  end.

(** The loop of [update_research] over [active_projects.items()]. *)
Fixpoint update_loop (eff : float) (items : Dict.t ResearchProject)
    (researched : list string) (available : Z) (completed : list string)
  : outcome unit * loop_state :=
  match items with
  | [] => (Return tt, mkLoop [] researched available completed)
  | (tech_id, project) :: rest =>
      match update_progress project eff with
      | (Raise e, project') =>
          (Raise e, mkLoop ((tech_id, project') :: rest)
                      researched available completed)
      | (Return true, project') =>
          let researched' :=
            if str_in tech_id researched then researched
            else (researched ++ [tech_id])%list in
          let '(r, st) :=
            update_loop eff rest researched'
              (available + scientists_assigned project')%Z
              (completed ++ [tech_id])%list in
          (r, mkLoop ((tech_id, project') :: l_projects st)
                (l_researched st) (l_available st) (l_completed st))
      | (Return false, project') =>
          let '(r, st) := update_loop eff rest researched available completed in
          (r, mkLoop ((tech_id, project') :: l_projects st)
                (l_researched st) (l_available st) (l_completed st))
      end
  end.

(** [ResearchSystem.update_research] *)
Definition update_research (s : ResearchSystem)
  : outcome (list string) * ResearchSystem :=
  let '(r, st) :=
    update_loop (efficiency s) (active_projects s)
      (researched_technologies s) (available_scientists s) [] in
  match r with
  | Raise e =>
      (Raise e,
       mkSystem (technologies s) (l_projects st) (l_researched st)
         (l_available st) (research_points s) (efficiency s))
  | Return _ =>
      (Return (l_completed st),
       mkSystem (technologies s)
         (delete_completed (l_completed st) (l_projects st))
         (l_researched st) (l_available st) (research_points s) (efficiency s))
  end.

(** [n] calls of [update_research], whatever each of them returns. *)
Fixpoint ticks (n : nat) (s : ResearchSystem) : ResearchSystem :=
  match n with
  | O => s
  | S n' => ticks n' (snd (update_research s))
  end.

(** *** systems/spacecraft_system.py *)

Import Spacecraft.

(** [math.log] on a positive argument. *)
Variable log : float -> float.

Definition axis_overlap (axis : string) (size1 pos1 size2 pos2 : Dict.t float)
  : outcome bool :=
  p1 <- Dict.getitem pos1 axis ;;
  s1 <- Dict.getitem size1 axis ;;
  p2 <- Dict.getitem pos2 axis ;;
  if Num.ltb (add p1 s1) p2 then Return false
  else
    p1' <- Dict.getitem pos1 axis ;;
    p2' <- Dict.getitem pos2 axis ;;
    s2 <- Dict.getitem size2 axis ;;
    Return (negb (Num.gtb p1' (add p2' s2))).

Fixpoint overlap_loop (axes : list string) (size1 pos1 size2 pos2 : Dict.t float)
  : outcome bool :=
  match axes with
  | [] => Return false
  | axis :: rest =>
      b <- axis_overlap axis size1 pos1 size2 pos2 ;;
      if b then Return true else overlap_loop rest size1 pos1 size2 pos2
  end.

(** [SpacecraftDesign._components_overlap] *)
Definition _components_overlap (size1 pos1 size2 pos2 : Dict.t float)
  : outcome bool :=
  overlap_loop ["x"; "y"; "z"] size1 pos1 size2 pos2.

Fixpoint collision_loop (items : Dict.t ComponentSpec) (lay : Dict.t (Dict.t float))
    (new_component : ComponentSpec) (position : Dict.t float) : outcome bool :=
  match items with
  | [] => Return false
  | (comp_id, comp) :: rest =>
      other_pos <- Dict.getitem lay comp_id ;;
      b <- _components_overlap (size new_component) position (size comp) other_pos ;;
      if b then Return true else collision_loop rest lay new_component position
  end.

(** [SpacecraftDesign._check_collision] *)
Definition _check_collision (d : SpacecraftDesign) (new_component : ComponentSpec)
    (position : Dict.t float) : outcome bool :=
  collision_loop (components d) (layout d) new_component position.

Definition base_step (acc : base_stats) (component : ComponentSpec) : base_stats :=
  let pb := sub (b_power_balance acc) (power_required component) in
  mkBase (add (b_mass acc) (mass component))
         (add (b_cost acc) (cost component))
         (match variant component with
          | Power power_output _ => add pb power_output
          | _ => pb
          end)
         (mul (b_reliability acc) (reliability component)).

Definition base_loop (comps : list ComponentSpec) : base_stats :=
  fold_left base_step comps (mkBase 0 0 0 1.0).

Definition engine_step (acc : engine_stats) (component : ComponentSpec)
  : engine_stats :=
  match variant component with
  | Propulsion thrust isp _ _ =>
      mkEngine (total_fuel acc) (add (total_thrust acc) thrust)
               (add (avg_isp acc) isp) (num_engines acc + 1)%Z
  | Storage _ max_mass contents_type =>
      if String.eqb contents_type "FUEL"
      then mkEngine (add (total_fuel acc) max_mass) (total_thrust acc)
                    (avg_isp acc) (num_engines acc)
      else acc
  | _ => acc
  end.

Definition engine_loop (comps : list ComponentSpec) : engine_stats :=
  fold_left engine_step comps (mkEngine 0 0 0 0%Z).

(** [math.log x]: a [ValueError] for [x <= 0]. *)
Definition math_log (x : float) : outcome float :=
  if Num.leb x 0 then Raise ValueError else Return (log x).

(** [a / b], a [ZeroDivisionError] for [b = 0]. *)
Definition truediv (a b : float) : outcome float :=
  if Num.eqb b 0 then Raise ZeroDivisionError else Return (div a b).

(** The delta-v block of [_update_statistics]. *)
Definition tsiolkovsky (m : float) (e : engine_stats) : option (outcome float) :=
  if Z.gtb (num_engines e) 0 && Num.gtb (total_fuel e) 0 then
    Some (let avg := div (avg_isp e) (of_int (num_engines e)) in
          let dry_mass := sub m (total_fuel e) in
          ratio <- truediv m dry_mass ;;
          l <- math_log ratio ;;
          Return (mul (mul avg (literal 9.81)) l))
  else None.

(** [SpacecraftDesign._update_statistics] *)
Definition _update_statistics (d : SpacecraftDesign)
  : outcome unit * SpacecraftDesign :=
  let b := base_loop (Dict.values (components d)) in
  let e := engine_loop (Dict.values (components d)) in
  let with_dv v :=
    mkDesign (design_name d) (components d) (layout d)
      (b_mass b) (b_cost b) (b_power_balance b) v (b_reliability b) in
  match tsiolkovsky (b_mass b) e with
  | None => (Return tt, with_dv (_delta_v d))
  | Some (Return v) => (Return tt, with_dv v)
  | Some (Raise ex) => (Raise ex, with_dv (_delta_v d))
  end.

(** [SpacecraftDesign.add_component] *)
Definition add_component (d : SpacecraftDesign) (component : ComponentSpec)
    (position : Dict.t float) : outcome bool * SpacecraftDesign :=
  match _check_collision d component position with
  | Raise ex => (Raise ex, d)
  | Return true => (Return false, d)
  | Return false =>
      let component_id :=
        String.append (id component)
          (String.append "_" (str_of_nat (Dict.len (components d)))) in
      let d1 :=
        with_parts d (Dict.set component_id component (components d))
                     (Dict.set component_id position (layout d)) in
      match _update_statistics d1 with
      | (Return _, d2) => (Return true, d2)
      | (Raise ex, d2) => (Raise ex, d2)
      end
  end.

(** *** ui/mission_controller.py *)

Import Mission.

(** [MissionController._update_physics], on the mission data it mutates.
    The factors and the steps 0.01, 0.1 and 0.05 are literals of the
    source. *)
Definition physics (m : MissionData) : MissionData :=
  let f := factors_of (stage m) in
  let altitude1 := add (altitude m) (mul (thrust m) (literal (f_altitude f))) in
  let velocity1 := add (velocity m) (mul (thrust m) (literal (f_velocity f))) in
  let fuel1 := sub (fuel m) (mul (thrust m) (literal (f_fuel f))) in
  let velocity2 :=
    if Num.ltb altitude1 100 then sub velocity1 (literal 0.01) else velocity1 in
  let battery1 := sub (battery m) (literal 0.01) in
  let temperature1 :=
    if Num.gtb (thrust m) 50 then add (temperature m) (literal 0.1)
    else Num.py_max 20 (sub (temperature m) (literal 0.05)) in
  mkData altitude1 velocity2 fuel1 (orbit_status m) (stage m) (thrust m)
    (orientation m) temperature1 battery1 (comms m).

Definition _update_physics (s : MissionController) : MissionController :=
  with_data s (physics (mission_data s)).

(** [MissionController._check_mission_status]: the two differences of the
    orbit test are float differences. *)
Definition _check_mission_status (s : MissionController)
  : outcome unit * MissionController :=
  if Num.leb (fuel (mission_data s)) 0 then
    abort_mission (log_event s "CRITICAL: Fuel depleted" "ERROR")
  else
    let s1 :=
      if Num.leb (battery (mission_data s)) 10
      then log_event s "WARNING: Low battery" "WARNING"
      else s in
    if Num.gtb (temperature (mission_data s1)) 100 then
      abort_mission (log_event s1 "CRITICAL: Temperature critical" "ERROR")
    else if Num.ltb (Qabs (sub (altitude (mission_data s1)) (target_altitude s1))) 10
            && Num.ltb (Qabs (sub (velocity (mission_data s1)) (target_velocity s1)))
                       (literal 0.1)
    then (Return tt, log_event s1 "SUCCESS: Target orbit achieved!" "SUCCESS")
    else (Return tt, s1).

(** [MissionController.update_mission]: one timer tick. *)
Definition update_mission (s : MissionController) (r : float) (pick : nat)
  : outcome unit * MissionController :=
  if negb (mission_active s) then (Return tt, s)
  else
    let s1 :=
      mkController (mission_active s) (mission_time s + 1) (anomaly_chance s)
        (target_altitude s) (target_velocity s) (mission_data s) (systems s)
        (update_timer s) (event_log s) in
    let s2 := _update_physics s1 in
    let s3 := _check_anomalies s2 r pick in
    match _check_mission_status s3 with
    | (Raise e, s4) => (Raise e, s4)
    | (Return _, s4) =>
        (Return tt,
         if mission_active s4 then
           mkController (mission_active s4) (mission_time s4) (anomaly_chance s4)
             (target_altitude s4) (target_velocity s4) (mission_data s4)
             (systems s4) true (event_log s4)
         else s4)
    end.

End Rounding.

End Rounded.

(** * Vocabulary of the statements

    Definitions used to state the properties below: the outcome of an
    accepted start and of a research tick, the bookkeeping of the head
    count, box overlap as geometry has it, the aggregates of a design
    written as separate sums, and the abort condition of a mission. *)

Module ResearchSpec.
Import Research.

(** The system [start_research] leaves behind when it accepts. *)
Definition started (s : ResearchSystem) (tech_id : string) (tech : Technology)
    (scientists : Z) : ResearchSystem :=
  mkSystem (technologies s)
    (Dict.set tech_id (mkProject tech 0 scientists ACTIVE) (active_projects s))
    (researched_technologies s)
    (available_scientists s - scientists)%Z
    (research_points s - cost tech)%Z
    (efficiency s).

(** Whether one update of the project reports completion. *)
Definition finishes (eff : float) (p : ResearchProject) : bool :=
  match fst (update_progress p eff) with
  | Return true => true
  | _ => false
  end.

(** The scientists of the projects of [d] that complete on this tick. *)
Definition returned_scientists (eff : float) (d : Dict.t ResearchProject) : Z :=
  fold_right
    (fun kv acc =>
       if finishes eff (snd kv) then (scientists_assigned (snd kv) + acc)%Z else acc)
    0%Z d.

(** The ids of the projects of [d] that complete on this tick, in order. *)
Definition finished_ids (eff : float) (d : Dict.t ResearchProject) : list string :=
  map fst (filter (fun kv => finishes eff (snd kv)) d).

(** Every project of [d] after one update, under its key. *)
Definition advanced (eff : float) (d : Dict.t ResearchProject)
  : Dict.t ResearchProject :=
  map (fun kv => (fst kv, snd (update_progress (snd kv) eff))) d.







(** The bookkeeping the research system relies on: distinct keys, no
    technology or project with a zero research time, and no scientists left
    on a paused project. *)
Definition well_kept (s : ResearchSystem) : Prop :=
  Dict.wf (active_projects s) /\
  (forall k t, In (k, t) (technologies s) -> research_time t <> 0%Z) /\
  (forall k q, In (k, q) (active_projects s) ->
               research_time (technology q) <> 0%Z) /\
  (forall k q, In (k, q) (active_projects s) -> status q = PAUSED ->
               scientists_assigned q = 0%Z).



(** All prerequisites of [tech] are researched. *)
Definition prerequisites_met (s : ResearchSystem) (tech : Technology) : Prop :=
  forall prereq, In prereq (prerequisites tech) ->
                 In prereq (researched_technologies s).

(** The research order is respected: every project is stored under the key
    of its technology and has its prerequisites researched, and so has every
    researched technology of the catalog. *)
Definition ordered (s : ResearchSystem) : Prop :=
  (forall k q, In (k, q) (active_projects s) ->
     Dict.get k (technologies s) = Some (technology q) /\
     prerequisites_met s (technology q)) /\
  (forall t tech, In t (researched_technologies s) ->
     Dict.get t (technologies s) = Some tech -> prerequisites_met s tech).

(** No project in [active_projects] is finished. *)
Definition in_progress (s : ResearchSystem) : Prop :=
  forall k q, In (k, q) (active_projects s) ->
              status q <> COMPLETED /\ progress q < 100.

(** Every technology is stored under its own id. *)
Definition keys_are_ids (s : ResearchSystem) : Prop :=
  forall k t, In (k, t) (technologies s) -> id t = k.

(** No technology has a negative cost. *)
Definition costs_nonneg (s : ResearchSystem) : Prop :=
  forall k t, In (k, t) (technologies s) -> (0 <= cost t)%Z.

End ResearchSpec.

Module SpacecraftSpec.
Import Spacecraft.

(** The closed intervals [[p1, p1 + s1]] and [[p2, p2 + s2]] meet. *)
Definition intervals_meet (p1 s1 p2 s2 : float) : bool :=
  negb (Num.ltb (p1 + s1) p2 || Num.gtb p1 (p2 + s2)).

Definition on_axis (axis : string) (size1 pos1 size2 pos2 : Dict.t float) : bool :=
  intervals_meet (Dict.get_default pos1 axis 0) (Dict.get_default size1 axis 0)
                 (Dict.get_default pos2 axis 0) (Dict.get_default size2 axis 0).

(** Two axis-aligned boxes overlap: their extents meet on x, on y and on z. *)
Definition boxes_overlap (size1 pos1 size2 pos2 : Dict.t float) : bool :=
  forallb (fun axis => on_axis axis size1 pos1 size2 pos2) ["x"; "y"; "z"].

(** Their extents meet on at least one of the three axes. *)
Definition meet_on_some_axis (size1 pos1 size2 pos2 : Dict.t float) : bool :=
  existsb (fun axis => on_axis axis size1 pos1 size2 pos2) ["x"; "y"; "z"].

(** Place a list of components one after the other, keeping every result. *)
Fixpoint place_all (log : float -> float) (d : SpacecraftDesign)
    (parts : list (ComponentSpec * Dict.t float))
  : list (outcome bool) * SpacecraftDesign :=
  match parts with
  | [] => ([], d)
  | (component, position) :: rest =>
      let '(r, d1) := add_component log d component position in
      let '(rs, d2) := place_all log d1 rest in
      (r :: rs, d2)
  end.




(** Ten engines on the diagonal, ten metres apart, and one tank after them. *)
Definition ten_engines_one_tank : list (ComponentSpec * Dict.t float) :=
  (map (fun i => (BASIC_ENGINE, at_xyz (inject_Z i) (inject_Z i) (inject_Z i)))
       [0; 10; 20; 30; 40; 50; 60; 70; 80; 90]%Z
   ++ [(BASIC_TANK, at_xyz 100 100 100)])%list.

(** A dictionary with exactly the entries x, y and z, in that order. *)
Definition is_box (b : Dict.t float) : Prop :=
  exists vx vy vz, b = at_xyz vx vy vz.

(** Every placed component has a box for its size and one for its place. *)
Definition well_placed (d : SpacecraftDesign) : Prop :=
  forall comp_id comp,
    In (comp_id, comp) (components d) ->
    is_box (size comp) /\
    exists pos, Dict.get comp_id (layout d) = Some pos /\ is_box pos.

(** The same tests with the upper end of each interval computed in floats:
    [p + s] is rounded before it is compared. *)
Definition float_intervals_meet (round : Q -> Q) (p1 s1 p2 s2 : float) : bool :=
  negb (Num.ltb (round (p1 + s1)) p2 || Num.gtb p1 (round (p2 + s2))).

Definition float_on_axis (round : Q -> Q) (axis : string)
    (size1 pos1 size2 pos2 : Dict.t float) : bool :=
  float_intervals_meet round
    (Dict.get_default pos1 axis 0) (Dict.get_default size1 axis 0)
    (Dict.get_default pos2 axis 0) (Dict.get_default size2 axis 0).

Definition float_meet_on_some_axis (round : Q -> Q)
    (size1 pos1 size2 pos2 : Dict.t float) : bool :=
  existsb (fun axis => float_on_axis round axis size1 pos1 size2 pos2)
          ["x"; "y"; "z"].

Definition float_meets_some_placed (round : Q -> Q) (d : SpacecraftDesign)
    (component : ComponentSpec) (position : Dict.t float) : bool :=
  existsb
    (fun kv =>
       float_meet_on_some_axis round (size component) position (size (snd kv))
         (Dict.get_default (layout d) (fst kv) []))
    (components d).

(** The float sum of a list: its elements added one after the other to 0,
    each addition rounded. *)
Definition running_sum (round : Q -> Q) (l : list float) : float :=
  fold_left (fun acc x => round (acc + x)) l 0.

(** The specific impulses of the propulsion components among [comps], and
    the fuel masses of the storage components with contents "FUEL". *)
Definition isps (comps : list ComponentSpec) : list float :=
  flat_map (fun c => match variant c with
                     | Propulsion _ isp _ _ => [isp]
                     | _ => []
                     end) comps.

Definition fuels (comps : list ComponentSpec) : list float :=
  flat_map (fun c => match variant c with
                     | Storage _ max_mass contents_type =>
                         if String.eqb contents_type "FUEL" then [max_mass] else []
                     | _ => []
                     end) comps.

(** A stand-in for [math.log] in runs where its value plays no part, and
    one that tells its arguments apart (the tangent of the logarithm
    at 1). *)
Definition log_unused : float -> float := fun _ => 0.
Definition log_tangent : float -> float := fun x => x - 1.

(** The id [add_component] gives to a component placed in [d]. *)
Definition next_id (d : SpacecraftDesign) (component : ComponentSpec) : string :=
  String.append (id component)
    (String.append "_" (str_of_nat (Dict.len (components d)))).

(** A propulsion component. *)
Definition is_engine (c : ComponentSpec) : bool :=
  match variant c with
  | Propulsion _ _ _ _ => true
  | _ => false
  end.

(** The fuel a component carries: the [max_mass] of a storage component
    whose contents are "FUEL", nothing for any other component. *)
Definition fuel_of (c : ComponentSpec) : float :=
  match variant c with
  | Storage _ max_mass contents_type =>
      if String.eqb contents_type "FUEL" then max_mass else 0
  | _ => 0
  end.

(** No component is an engine, or no component carries fuel. *)
Definition no_engine_or_no_fuel (comps : list ComponentSpec) : Prop :=
  (forall c, In c comps -> is_engine c = false) \/
  (forall c, In c comps -> fuel_of c == 0).


(** Two radios placed far apart, the first removed again. *)
Definition one_radio_left (log : float -> float) : SpacecraftDesign :=
  snd (remove_component log
         (snd (place_all log (new_design "probe")
                 [(BASIC_RADIO, at_xyz 0 0 0); (BASIC_RADIO, at_xyz 10 10 10)]))
         "BASIC_RADIO_0").

End SpacecraftSpec.

Module MissionSpec.
Import Mission.


(** The two conditions under which the status check aborts. *)
Definition abort_condition (m : MissionData) : Prop :=
  fuel m <= 0 \/ 100 < temperature m.

(** The mission as [reset_mission] has written it when it reaches the
    displays: time zero, default data, every system flag set. *)
Definition is_reset (s : MissionController) : Prop :=
  mission_time s = 0%Z /\
  mission_data s = create_default /\
  (forall sys flag, In (sys, flag) (systems s) -> flag = true).

(** The simulation state of a controller besides its event log and timer. *)
Definition same_flight (s s' : MissionController) : Prop :=
  mission_active s' = mission_active s /\
  mission_time s' = mission_time s /\
  mission_data s' = mission_data s /\
  systems s' = systems s.

(** The controller as the status check of a tick sees it: time advanced,
    physics applied, anomaly drawn. *)
Definition before_check (s : MissionController) (r : float) (pick : nat)
  : MissionController :=
  _check_anomalies
    (_update_physics
       (mkController (mission_active s) (mission_time s + 1) (anomaly_chance s)
          (target_altitude s) (target_velocity s) (mission_data s) (systems s)
          (update_timer s) (event_log s)))
    r pick.

(** The same with the physics computed in floats. *)
Definition float_before_check (round : Q -> Q) (s : MissionController)
    (r : float) (pick : nat) : MissionController :=
  _check_anomalies
    (Rounded._update_physics round
       (mkController (mission_active s) (mission_time s + 1) (anomaly_chance s)
          (target_altitude s) (target_velocity s) (mission_data s) (systems s)
          (update_timer s) (event_log s)))
    r pick.

(** The commands of the control panel and the timer, and a flight as the
    sequence of them.  A tick and a launch carry the two random draws of
    the anomaly check. *)
Inductive command : Type :=
| Launch (r : float) (pick : nat)
| Tick (r : float) (pick : nat)
| Stage
| Abort
| Thrust (delta : float).

Definition perform (s : MissionController) (c : command)
  : outcome unit * MissionController :=
  match c with
  | Launch r pick => start_mission s r pick
  | Tick r pick => update_mission s r pick
  | Stage => next_stage s
  | Abort => abort_mission s
  | Thrust delta => (Return tt, adjust_thrust s delta)
  end.

(** The controller as a command leaves it, whether the callback returned or
    raised: Tk reports the exception of a callback and goes on with the
    same controller. *)
Definition exec (s : MissionController) (c : command) : MissionController :=
  snd (perform s c).

Definition fly (s : MissionController) (commands : list command)
  : MissionController :=
  fold_left exec commands s.


(** What the status check reads and what it decides. *)
Definition flight_of (s : MissionController)
  : bool * Z * MissionData * float * float :=
  (mission_active s, mission_time s, mission_data s,
   target_altitude s, target_velocity s).

End MissionSpec.

(** * Facts about the Python values *)

Section NumFacts.

Lemma leb_le (a b : float) : Num.leb a b = true <-> a <= b.
Proof. unfold Num.leb. apply Qle_bool_iff. Qed.

Lemma ltb_lt (a b : float) : Num.ltb a b = true <-> a < b.
Proof.
  unfold Num.ltb. rewrite negb_true_iff. split; intro H.
  - apply Qnot_le_lt. intro Hle. apply Qle_bool_iff in Hle. congruence.
  - destruct (Qle_bool b a) eqn:E; [|reflexivity].
    apply Qle_bool_iff in E. exfalso. exact (Qlt_not_le _ _ H E).
Qed.

Lemma ltb_ge (a b : float) : Num.ltb a b = false <-> b <= a.
Proof.
  unfold Num.ltb. rewrite negb_false_iff. apply Qle_bool_iff.
Qed.

Lemma leb_gt (a b : float) : Num.leb a b = false <-> b < a.
Proof.
  rewrite <- ltb_lt. unfold Num.ltb, Num.leb.
  destruct (Qle_bool a b); simpl; intuition congruence.
Qed.

Lemma gtb_gt (a b : float) : Num.gtb a b = true <-> b < a.
Proof. unfold Num.gtb. apply ltb_lt. Qed.

Lemma geb_ge (a b : float) : Num.geb a b = true <-> b <= a.
Proof. unfold Num.geb. apply leb_le. Qed.

Lemma py_min_le_l (a b : float) : Num.py_min a b <= a.
Proof.
  unfold Num.py_min. destruct (Num.ltb b a) eqn:E.
  - apply ltb_lt in E. apply Qlt_le_weak, E.
  - apply Qle_refl.
Qed.

Lemma py_min_glb (a b c : float) : c <= a -> c <= b -> c <= Num.py_min a b.
Proof. intros Ha Hb. unfold Num.py_min. destruct (Num.ltb b a); assumption. Qed.

Lemma str_in_In (x : string) (l : list string) : str_in x l = true <-> In x l.
Proof.
  unfold str_in. rewrite existsb_exists. split.
  - intros [y [Hy E]]. apply String.eqb_eq in E. subst. exact Hy.
  - intro H. exists x. split; [exact H | apply String.eqb_refl].
Qed.

Lemma str_in_not_In (x : string) (l : list string) : str_in x l = false <-> ~ In x l.
Proof.
  rewrite <- str_in_In. destruct (str_in x l); intuition congruence.
Qed.

End NumFacts.

(** * Facts about dictionaries *)

Section DictFacts.
Context {V : Type}.
Implicit Types (d : Dict.t V) (k : string) (v : V).

Lemma get_set_same d k v : Dict.get k (Dict.set k v d) = Some v.
Proof.
  induction d as [|[k' v'] d IH]; simpl.
  - now rewrite String.eqb_refl.
  - destruct (String.eqb k k') eqn:E; simpl; rewrite E; [reflexivity | exact IH].
Qed.

Lemma get_set_other d k k' v :
  k' <> k -> Dict.get k' (Dict.set k v d) = Dict.get k' d.
Proof.
  intro Hne. induction d as [|[k0 v0] d IH]; simpl.
  - apply String.eqb_neq in Hne. now rewrite Hne.
  - destruct (String.eqb k k0) eqn:E; simpl.
    + apply String.eqb_eq in E. subst k0.
      apply String.eqb_neq in Hne. now rewrite Hne.
    + destruct (String.eqb k' k0); [reflexivity | exact IH].
Qed.



Lemma get_In d k v : Dict.get k d = Some v -> In (k, v) d.
Proof.
  induction d as [|[k' v'] d IH]; simpl; [discriminate|].
  destruct (String.eqb k k') eqn:E.
  - apply String.eqb_eq in E. intros [= ->]. subst. now left.
  - intro H. right. apply IH, H.
Qed.

Lemma get_None_keys d k : Dict.get k d = None <-> ~ In k (Dict.keys d).
Proof.
  induction d as [|[k' v'] d IH]; simpl.
  - intuition.
  - destruct (String.eqb k k') eqn:E.
    + apply String.eqb_eq in E. subst. split; [discriminate | intro H; exfalso; apply H; now left].
    + apply String.eqb_neq in E. rewrite IH. intuition congruence.
Qed.

End DictFacts.

(** * The research system *)

Section ResearchFacts.
Import Research.

Lemma is_available_spec (tech : Technology) (researched : list string) :
  is_available tech researched = true <->
  (forall prereq, In prereq (prerequisites tech) -> In prereq researched).
Proof.
  unfold is_available. destruct (prerequisites tech) as [|q qs] eqn:E.
  - split; [intros _ ? [] | reflexivity].
  - rewrite forallb_forall. split; intros H x Hx.
    + apply str_in_In, H, Hx.
    + apply str_in_In, H, Hx.
Qed.

Lemma is_available_false (tech : Technology) (researched : list string) prereq :
  In prereq (prerequisites tech) -> ~ In prereq researched ->
  is_available tech researched = false.
Proof.
  intros Hin Hnot. destruct (is_available tech researched) eqn:E; [|reflexivity].
  exfalso. apply Hnot. rewrite is_available_spec in E. auto.
Qed.

(** C3. [start_research] returns [False] and changes nothing when the
    technology is unknown, a prerequisite is not researched, the technology
    is already researched, more scientists are asked for than are idle, or
    the cost exceeds the research points.  When none of these holds it
    returns [True]; the system then has an ACTIVE project at progress 0
    with the given scientists under [tech_id], the pool is reduced by the
    scientists and the points by the cost, and nothing else changes. *)
Theorem start_research_validates (s : ResearchSystem) (tech_id : string)
    (scientists : Z) :
  ((Dict.get tech_id (technologies s) = None \/
    exists tech, Dict.get tech_id (technologies s) = Some tech /\
      ((exists prereq, In prereq (prerequisites tech) /\
                       ~ In prereq (researched_technologies s)) \/
       In tech_id (researched_technologies s) \/
       (scientists > available_scientists s)%Z \/
       (cost tech > research_points s)%Z)) ->
   start_research s tech_id scientists = (false, s)) /\
  (forall tech,
      Dict.get tech_id (technologies s) = Some tech ->
      (forall prereq, In prereq (prerequisites tech) ->
                      In prereq (researched_technologies s)) ->
      ~ In tech_id (researched_technologies s) ->
      (scientists <= available_scientists s)%Z ->
      (cost tech <= research_points s)%Z ->
      let s' := snd (start_research s tech_id scientists) in
      start_research s tech_id scientists = (true, s') /\
      Dict.get tech_id (active_projects s')
        = Some (mkProject tech 0 scientists ACTIVE) /\
      available_scientists s' = (available_scientists s - scientists)%Z /\
      research_points s' = (research_points s - cost tech)%Z /\
      researched_technologies s' = researched_technologies s /\
      technologies s' = technologies s /\
      (forall other, other <> tech_id ->
         Dict.get other (active_projects s') = Dict.get other (active_projects s))).
Proof.
  split.
  - intros [Hnone | [tech [Hget Hbad]]]; unfold start_research.
    + now rewrite Hnone.
    + rewrite Hget.
      destruct (is_available tech (researched_technologies s)) eqn:Ea; simpl;
        [|reflexivity].
      destruct (str_in tech_id (researched_technologies s)) eqn:Er; [reflexivity|].
      destruct (Z.gtb_spec scientists (available_scientists s)) as [Es|Es];
        [reflexivity|].
      destruct (Z.gtb_spec (cost tech) (research_points s)) as [Ec|Ec];
        [reflexivity|].
      exfalso.
      destruct Hbad as [[prereq [Hin Hnot]] | [Hr | [Hs | Hc]]].
      * rewrite (is_available_false _ _ _ Hin Hnot) in Ea. discriminate.
      * apply str_in_In in Hr. congruence.
      * lia.
      * lia.
  - intros tech Hget Hpre Hnew Hsci Hcost.
    assert (E : start_research s tech_id scientists
                = (true, ResearchSpec.started s tech_id tech scientists)).
    { unfold start_research. rewrite Hget.
      apply is_available_spec in Hpre. rewrite Hpre. simpl.
      apply str_in_not_In in Hnew. rewrite Hnew.
      replace (Z.gtb scientists (available_scientists s)) with false by lia.
      replace (Z.gtb (cost tech) (research_points s)) with false by lia.
      reflexivity. }
    rewrite E. simpl. repeat split.
    + apply get_set_same.
    + intros other Hne. now apply get_set_other.
Qed.

(** The two branches of C3 at the initial system: a request for an unknown
    technology is rejected, and three scientists can be put on
    BASIC_ROCKETRY. *)
Lemma start_research_validates_witness :
  start_research init "WARP_DRIVE" 3 = (false, init) /\
  start_research init "BASIC_ROCKETRY" 3
    = (true, snd (start_research init "BASIC_ROCKETRY" 3)).
Proof.
  split.
  - apply (proj1 (start_research_validates init "WARP_DRIVE" 3)).
    left. reflexivity.
  - apply (proj2 (start_research_validates init "BASIC_ROCKETRY" 3)
             BASIC_ROCKETRY).
    + reflexivity.
    + intros prereq H. simpl in H. contradiction.
    + simpl. intro H. exact H.
    + simpl. lia.
    + simpl. lia.
Defined.

Lemma progress_increase_nonneg (p : ResearchProject) (eff : float) :
  (0 <= scientists_assigned p)%Z -> 0 <= eff ->
  (0 < research_time (technology p))%Z ->
  0 <= progress_increase p eff.
Proof.
  intros Hs He Ht. unfold progress_increase.
  apply Qle_shift_div_l.
  - change 0 with (inject_Z 0). rewrite <- Zlt_Qlt. exact Ht.
  - rewrite Qmult_0_l. apply Qmult_le_0_compat; [|exact He].
    change 0 with (inject_Z 0). rewrite <- Zle_Qle. exact Hs.
Qed.

(** C4. For a project with progress in [0, 100], no negative head count,
    a non-negative efficiency and a positive research time,
    [update_progress] returns, leaves progress at most 100, does not lower
    the progress of an ACTIVE project, and does not touch a PAUSED or
    COMPLETED one. *)
Theorem update_progress_capped_monotone (p : ResearchProject) (eff : float) :
  0 <= progress p -> progress p <= 100 ->
  (0 <= scientists_assigned p)%Z ->
  0 <= eff ->
  (0 < research_time (technology p))%Z ->
  exists (finished : bool) (p' : ResearchProject),
    update_progress p eff = (Return finished, p') /\
    progress p' <= 100 /\
    (status p = ACTIVE -> progress p <= progress p') /\
    (status p = PAUSED \/ status p = COMPLETED -> p' = p).
Proof.
  intros Hlo Hhi Hs He Ht.
  pose proof (progress_increase_nonneg p eff Hs He Ht) as Hinc.
  unfold update_progress.
  destruct (status p) eqn:Est.
  - replace (Z.eqb (research_time (technology p)) 0) with false by lia.
    set (np := Num.py_min 100 (progress p + progress_increase p eff)).
    assert (Hcap : np <= 100) by apply py_min_le_l.
    assert (Hmono : progress p <= np).
    { apply py_min_glb; [exact Hhi|]. lra. }
    destruct (Num.geb (progress (set_progress p np)) 100);
      eexists; eexists; (split; [reflexivity|]); simpl;
      (repeat split; [exact Hcap | intros _; exact Hmono | ]);
      intros [H | H]; discriminate.
  - exists false, p. repeat split; auto. discriminate.
  - exists false, p. repeat split; auto. discriminate.
Qed.

(** C4 at an active BASIC_ROCKETRY project, half done, with three
    scientists. *)
Lemma update_progress_capped_monotone_witness :
  exists (finished : bool) (p' : ResearchProject),
    update_progress (mkProject BASIC_ROCKETRY 50 3 ACTIVE) 1.0
      = (Return finished, p') /\
    progress p' <= 100 /\
    (ACTIVE = ACTIVE -> 50 <= progress p') /\
    (ACTIVE = PAUSED \/ ACTIVE = COMPLETED ->
     p' = mkProject BASIC_ROCKETRY 50 3 ACTIVE).
Proof.
  apply (update_progress_capped_monotone (mkProject BASIC_ROCKETRY 50 3 ACTIVE) 1.0);
    simpl; try lia; unfold Qle; simpl; lia.
Defined.

(** ** One research tick *)

Import ResearchSpec.

Lemma update_progress_scientists (p : ResearchProject) (eff : float) :
  scientists_assigned (snd (update_progress p eff)) = scientists_assigned p.
Proof.
  unfold update_progress. destruct (status p); try reflexivity.
  destruct (Z.eqb _ _); [reflexivity|].
  destruct (Num.geb _ _); reflexivity.
Qed.

Lemma update_progress_active (p : ResearchProject) (eff : float) :
  status p = ACTIVE -> research_time (technology p) <> 0%Z ->
  let np := Num.py_min 100 (progress p + progress_increase p eff) in
  update_progress p eff =
    if Num.geb np 100
    then (Return true, mkProject (technology p) np (scientists_assigned p) COMPLETED)
    else (Return false, mkProject (technology p) np (scientists_assigned p) ACTIVE).
Proof.
  intros Hst Hrt. unfold update_progress. rewrite Hst.
  apply Z.eqb_neq in Hrt. rewrite Hrt. simpl.
  destruct (Num.geb _ _); unfold set_status, set_progress; simpl;
    rewrite ?Hst; reflexivity.
Qed.

Lemma update_progress_no_raise (p : ResearchProject) (eff : float) :
  (status p = ACTIVE -> research_time (technology p) <> 0%Z) ->
  exists b, fst (update_progress p eff) = Return b /\ finishes eff p = b.
Proof.
  intro H. unfold finishes, update_progress.
  destruct (status p).
  - specialize (H eq_refl). apply Z.eqb_neq in H. rewrite H.
    destruct (Num.geb _ _); simpl; eauto.
  - simpl; eauto.
  - simpl; eauto.
Qed.

(** The loop of [update_research] runs to its end when no active project
    has a zero research time, and then its four outputs are these. *)
Lemma update_loop_returns (eff : float) (items : Dict.t ResearchProject) :
  (forall k q, In (k, q) items -> status q = ACTIVE ->
               research_time (technology q) <> 0%Z) ->
  forall researched available completed,
  exists st,
    update_loop eff items researched available completed = (Return tt, st) /\
    l_projects st = advanced eff items /\
    l_available st = (available + returned_scientists eff items)%Z /\
    l_completed st = (completed ++ finished_ids eff items)%list /\
    (forall x, In x (l_researched st) <->
               In x researched \/ In x (finished_ids eff items)).
Proof.
  induction items as [|[k p] items IH]; intros Hrt researched available completed.
  - simpl. eexists. split; [reflexivity|]. simpl.
    repeat split; try tauto.
    + lia.
    + now rewrite app_nil_r.
  - assert (Hrest : forall k' q, In (k', q) items -> status q = ACTIVE ->
                                 research_time (technology q) <> 0%Z).
    { intros k' q Hin. apply (Hrt k' q). now right. }
    destruct (update_progress_no_raise p eff (Hrt k p (or_introl eq_refl)))
      as [b [Hb Hfin]].
    pose proof (update_progress_scientists p eff) as Hsci.
    cbn [update_loop].
    destruct (update_progress p eff) as [r p'] eqn:Eup.
    simpl in Hb, Hsci. subst r.
    unfold finished_ids, returned_scientists, advanced.
    cbn [filter map fold_right fst snd]. rewrite Eup, Hfin. cbn [snd].
    fold (returned_scientists eff items).
    destruct b.
    + destruct (IH Hrest
                  (if str_in k researched then researched
                   else (researched ++ [k])%list)
                  (available + scientists_assigned p')%Z
                  (completed ++ [k])%list)
        as [st [E [Hp [Ha [Hc Hr]]]]].
      rewrite E. eexists. split; [reflexivity|]. cbn.
      rewrite Hp, Ha, Hc, Hsci. repeat split.
      * lia.
      * now rewrite <- app_assoc.
      * intro Hx. apply Hr in Hx. fold (finished_ids eff items).
        destruct Hx as [Hx|Hx]; [|now right; right].
        destruct (str_in k researched); [now left|].
        apply in_app_or in Hx. destruct Hx as [Hx|[Hx|[]]]; [now left|].
        right. now left.
      * intro Hx. apply Hr. fold (finished_ids eff items) in Hx.
        destruct Hx as [Hx|[Hx|Hx]].
        -- left. destruct (str_in k researched); [exact Hx|].
           apply in_or_app. now left.
        -- subst x. left. destruct (str_in k researched) eqn:Ek.
           ++ now apply str_in_In.
           ++ apply in_or_app. right. now left.
        -- now right.
    + destruct (IH Hrest researched available completed)
        as [st [E [Hp [Ha [Hc Hr]]]]].
      rewrite E. eexists. split; [reflexivity|]. cbn.
      rewrite Hp, Ha, Hc. repeat split; try reflexivity; apply Hr.
Qed.


Lemma wf_In_get {V : Type} (d : Dict.t V) (k : string) (v : V) :
  Dict.wf d -> In (k, v) d -> Dict.get k d = Some v.
Proof.
  unfold Dict.wf, Dict.keys.
  induction d as [|[k' v'] d IH]; simpl; intros Hwf Hin; [contradiction|].
  inversion Hwf as [|? ? Hnot Hwf']; subst.
  destruct Hin as [[= -> ->] | Hin].
  - now rewrite String.eqb_refl.
  - destruct (String.eqb k k') eqn:E; [|now apply IH].
    apply String.eqb_eq in E. subst k'. exfalso. apply Hnot.
    change k with (fst (k, v)). now apply in_map.
Qed.

Lemma del_absent {V : Type} (d : Dict.t V) (k : string) :
  ~ In k (Dict.keys d) -> Dict.del k d = d.
Proof.
  unfold Dict.del, Dict.keys.
  induction d as [|[k' v'] d IH]; simpl; intro Hnot; [reflexivity|].
  destruct (String.eqb k k') eqn:E; simpl.
  - apply String.eqb_eq in E. subst. exfalso. apply Hnot. now left.
  - rewrite IH; [reflexivity|]. intro H. apply Hnot. now right.
Qed.

Lemma finished_ids_In (eff : float) (d : Dict.t ResearchProject) (k : string)
    (p : ResearchProject) :
  Dict.wf d -> Dict.get k d = Some p ->
  (In k (finished_ids eff d) <-> finishes eff p = true).
Proof.
  intros Hwf Hget. unfold finished_ids. rewrite in_map_iff. split.
  - intros [[k' q] [Hk Hin]]. simpl in Hk. subst k'.
    apply filter_In in Hin. destruct Hin as [Hin Hfin]. simpl in Hfin.
    rewrite (wf_In_get d k q Hwf Hin) in Hget. now inversion Hget; subst.
  - intro Hfin. exists (k, p). split; [reflexivity|].
    apply filter_In. split; [now apply get_In | exact Hfin].
Qed.

(** One tick of a fresh BASIC_ROCKETRY project with three scientists: the
    progress goes from 0 to 3 * 1.0 / 5 and nothing completes. *)
Example update_research_first_tick :
  let s := snd (start_research init "BASIC_ROCKETRY" 3) in
  fst (update_research s) = Return [] /\
  (exists p, Dict.get "BASIC_ROCKETRY" (active_projects (snd (update_research s)))
             = Some p /\ progress p == 0.6 /\ status p = ACTIVE) /\
  available_scientists (snd (update_research s)) = 7%Z.
Proof.
  repeat split. eexists. repeat split.
Qed.

(** ** Head count *)






Lemma del_when_present (d : Dict.t ResearchProject) (k : string) :
  (if Dict.mem k d then Dict.del k d else d) = Dict.del k d.
Proof.
  unfold Dict.mem. destruct (Dict.get k d) eqn:E; [reflexivity|].
  symmetry. apply del_absent. now apply get_None_keys.
Qed.

Lemma filter_twice {A : Type} (f g : A -> bool) (l : list A) :
  filter f (filter g l) = filter (fun x => g x && f x) l.
Proof.
  induction l as [|a l IH]; simpl; [reflexivity|].
  destruct (g a); simpl; [destruct (f a)|]; now rewrite IH.
Qed.

(** The deletion loop removes exactly the entries whose key is listed. *)
Lemma delete_completed_filter (completed : list string) :
  forall d : Dict.t ResearchProject,
    delete_completed completed d
    = filter (fun kv => negb (str_in (fst kv) completed)) d.
Proof.
  unfold delete_completed.
  induction completed as [|c cs IH]; intro d; simpl.
  - induction d as [|kv d IHd]; simpl; [reflexivity | now rewrite <- IHd].
  - rewrite del_when_present, IH. unfold Dict.del. rewrite filter_twice.
    apply filter_ext. intros [k q]. simpl.
    rewrite (String.eqb_sym c k). now rewrite negb_orb.
Qed.

Lemma finished_key (eff : float) (d : Dict.t ResearchProject) (k : string)
    (p : ResearchProject) :
  Dict.wf d -> In (k, p) d ->
  str_in k (finished_ids eff d) = finishes eff p.
Proof.
  intros Hwf Hin.
  pose proof (finished_ids_In eff d k p Hwf (wf_In_get d k p Hwf Hin)) as H.
  destruct (finishes eff p).
  - apply str_in_In. now apply H.
  - apply str_in_not_In. intro Hk. apply H in Hk. discriminate.
Qed.

Lemma assigned_total_after_tick (eff : float) (all : Dict.t ResearchProject) :
  Dict.wf all ->
  forall d, incl d all ->
    assigned_total
      (filter (fun kv => negb (str_in (fst kv) (finished_ids eff all)))
              (advanced eff d))
    = (assigned_total d - returned_scientists eff d)%Z.
Proof.
  intros Hwf. induction d as [|[k p] d IH]; intro Hincl; simpl; [reflexivity|].
  assert (Hin : In (k, p) all) by (apply Hincl; now left).
  assert (Hrest : incl d all) by (intros x Hx; apply Hincl; now right).
  rewrite (finished_key eff all k p Hwf Hin).
  fold (advanced eff d). fold (returned_scientists eff d).
  destruct (finishes eff p); simpl; rewrite (IH Hrest).
  - lia.
  - rewrite update_progress_scientists. lia.
Qed.

(** A tick returns the scientists of the completed projects and removes
    those projects: the head count does not change. *)
Lemma update_research_conserves (s : ResearchSystem) :
  Dict.wf (active_projects s) ->
  (forall k q, In (k, q) (active_projects s) ->
               research_time (technology q) <> 0%Z) ->
  exists completed,
    fst (update_research s) = Return completed /\
    active_projects (snd (update_research s))
      = filter (fun kv => negb (str_in (fst kv) completed))
               (advanced (efficiency s) (active_projects s)) /\
    completed = finished_ids (efficiency s) (active_projects s) /\
    total_scientists (snd (update_research s)) = total_scientists s.
Proof.
  intros Hwf Hrt.
  destruct (update_loop_returns (efficiency s) (active_projects s)
              (fun k q Hin _ => Hrt k q Hin)
              (researched_technologies s) (available_scientists s) [])
    as [st [E [Hp [Ha [Hc Hr]]]]].
  unfold update_research, total_scientists. rewrite E. cbn.
  exists (l_completed st). rewrite delete_completed_filter, Hp, Ha, Hc.
  cbn [app]. repeat split.
  rewrite (assigned_total_after_tick _ _ Hwf _ (incl_refl _)). lia.
Qed.

Lemma keys_set_In {V : Type} (d : Dict.t V) (k x : string) (v : V) :
  In x (Dict.keys (Dict.set k v d)) -> x = k \/ In x (Dict.keys d).
Proof.
  unfold Dict.keys. induction d as [|[k' v'] d IH]; simpl.
  - intros [H|[]]. now left.
  - destruct (String.eqb k k'); simpl.
    + intros [H|H]; right; [now left | now right].
    + intros [H|H]; [right; now left|].
      destruct (IH H) as [Hk|Hk]; [now left | right; now right].
Qed.

Lemma wf_set {V : Type} (d : Dict.t V) (k : string) (v : V) :
  Dict.wf d -> Dict.wf (Dict.set k v d).
Proof.
  unfold Dict.wf. induction d as [|[k' v'] d IH]; simpl; intro Hwf.
  - constructor; [intros [] | constructor].
  - inversion Hwf as [|? ? Hnot Hwf']; subst.
    destruct (String.eqb k k') eqn:E; simpl.
    + now constructor.
    + constructor; [|now apply IH].
      intro Hin. apply keys_set_In in Hin. destruct Hin as [Hk|Hk].
      * subst k'. rewrite String.eqb_refl in E. discriminate.
      * exact (Hnot Hk).
Qed.

Lemma In_set {V : Type} (d : Dict.t V) (k k0 : string) (v q : V) :
  In (k, q) (Dict.set k0 v d) -> (k = k0 /\ q = v) \/ In (k, q) d.
Proof.
  induction d as [|[k' v'] d IH]; simpl.
  - intros [[= <- <-]|[]]. now left.
  - destruct (String.eqb k0 k') eqn:E; simpl.
    + apply String.eqb_eq in E. subst k'.
      intros [[= <- <-]|H]; [now left | right; now right].
    + intros [H|H]; [right; now left|].
      destruct (IH H) as [Hk|Hk]; [now left | right; now right].
Qed.

Lemma wf_filter {V : Type} (f : string * V -> bool) (d : Dict.t V) :
  Dict.wf d -> Dict.wf (filter f d).
Proof.
  unfold Dict.wf, Dict.keys. induction d as [|[k v] d IH]; simpl; intro Hwf.
  - constructor.
  - inversion Hwf as [|? ? Hnot Hwf']; subst.
    destruct (f (k, v)); simpl; [|now apply IH].
    constructor; [|now apply IH].
    intro Hin. apply Hnot. apply in_map_iff in Hin.
    destruct Hin as [[k' v'] [Hk Hin]]. simpl in Hk. subst k'.
    apply filter_In in Hin. destruct Hin as [Hin _].
    change k with (fst (k, v')). now apply in_map.
Qed.

Lemma keys_advanced (eff : float) (d : Dict.t ResearchProject) :
  Dict.keys (advanced eff d) = Dict.keys d.
Proof.
  unfold Dict.keys, advanced. rewrite map_map. reflexivity.
Qed.

Lemma update_progress_keeps (p : ResearchProject) (eff : float) :
  let p' := snd (update_progress p eff) in
  technology p' = technology p /\
  (status p' = PAUSED -> p' = p).
Proof.
  unfold update_progress. destruct (status p) eqn:Est; simpl.
  - destruct (Z.eqb _ _); simpl; [rewrite Est; split; [reflexivity|discriminate]|].
    destruct (Num.geb _ _); simpl; rewrite ?Est;
      (split; [reflexivity | discriminate]).
  - split; reflexivity.
  - split; reflexivity.
Qed.

(** An entry of a dictionary after [Dict.set] is the entry written or one
    that was there before. *)
Ltac entry_of_set H :=
  apply In_set in H; destruct H as [[_ ->]|H].

(** Every call keeps the books in order. *)
Lemma well_kept_step (s : ResearchSystem) (c : call) :
  well_kept s -> well_kept (step s c).
Proof.
  intros [Hwf [Htech [Hrt Hpaused]]].
  assert (Hs : well_kept s) by (repeat split; assumption).
  destruct c as [tid n| |tid|tid n]; simpl.
  - unfold start_research.
    destruct (Dict.get tid (technologies s)) as [tech|] eqn:Et; [|exact Hs].
    destruct (negb _); [exact Hs|].
    destruct (str_in _ _); [exact Hs|].
    destruct (Z.gtb n _); [exact Hs|].
    destruct (Z.gtb (cost tech) _); [exact Hs|].
    simpl. repeat split; simpl.
    + now apply wf_set.
    + exact Htech.
    + intros k q Hin. entry_of_set Hin; [|now apply (Hrt k)].
      simpl. apply (Htech tid). now apply get_In.
    + intros k q Hin. entry_of_set Hin; [discriminate | now apply (Hpaused k)].
  - destruct (update_research_conserves s Hwf Hrt) as [cs [_ [Hact _]]].
    assert (Htechs : technologies (snd (update_research s)) = technologies s).
    { unfold update_research. destruct (update_loop _ _ _ _ _) as [[u|e] st];
        reflexivity. }
    assert (Hfrom : forall k q, In (k, q) (active_projects (snd (update_research s))) ->
              exists p, In (k, p) (active_projects s) /\
                        q = snd (update_progress p (efficiency s))).
    { intros k q Hin. rewrite Hact in Hin. apply filter_In in Hin.
      destruct Hin as [Hin _]. unfold advanced in Hin. apply in_map_iff in Hin.
      destruct Hin as [[k' p] [E Hin]]. inversion E; subst. now exists p. }
    repeat split.
    + rewrite Hact. apply wf_filter. unfold Dict.wf.
      now rewrite keys_advanced.
    + now rewrite Htechs.
    + intros k q Hin. destruct (Hfrom k q Hin) as [p [Hp ->]].
      rewrite (proj1 (update_progress_keeps p (efficiency s))).
      now apply (Hrt k).
    + intros k q Hin Hst. destruct (Hfrom k q Hin) as [p [Hp ->]].
      pose proof (proj2 (update_progress_keeps p (efficiency s)) Hst) as E.
      rewrite E in *. now apply (Hpaused k).
  - unfold pause_research.
    destruct (Dict.get tid (active_projects s)) as [p|] eqn:Ep; [|exact Hs].
    simpl. repeat split; simpl.
    + now apply wf_set.
    + exact Htech.
    + intros k q Hin. entry_of_set Hin; [|now apply (Hrt k)].
      simpl. apply (Hrt tid). now apply get_In.
    + intros k q Hin. entry_of_set Hin; [reflexivity | now apply (Hpaused k)].
  - unfold resume_research.
    destruct (Dict.get tid (active_projects s)) as [p|] eqn:Ep; [|exact Hs].
    destruct (Z.leb n _); [|exact Hs].
    simpl. repeat split; simpl.
    + now apply wf_set.
    + exact Htech.
    + intros k q Hin. entry_of_set Hin; [|now apply (Hrt k)].
      simpl. apply (Hrt tid). now apply get_In.
    + intros k q Hin. entry_of_set Hin; [discriminate | now apply (Hpaused k)].
Qed.



Lemma well_kept_init : well_kept init.
Proof.
  repeat split; simpl; try tauto.
  - constructor.
  - intros k t [H|[H|[]]]; inversion H; subst; simpl; lia.
Qed.

(** C10 fails on the code.  [start_research] does not look at
    [active_projects]: started a second time for a technology whose project
    is still running, it replaces the project and draws the new scientists
    from the pool without returning the old ones.  [resume_research] does
    the same to a project that was never paused.  From the initial ten
    scientists, either sequence below leaves seven. *)
Theorem restart_loses_scientists :
  let restarted :=
    run init [StartResearch "BASIC_ROCKETRY" 3; StartResearch "BASIC_ROCKETRY" 2] in
  let resumed :=
    run init [StartResearch "BASIC_ROCKETRY" 3; ResumeResearch "BASIC_ROCKETRY" 2] in
  total_scientists init = 10%Z /\
  fst (start_research (run init [StartResearch "BASIC_ROCKETRY" 3])
         "BASIC_ROCKETRY" 2) = true /\
  available_scientists restarted = 5%Z /\
  assigned_total (active_projects restarted) = 2%Z /\
  total_scientists restarted = 7%Z /\
  fst (resume_research (run init [StartResearch "BASIC_ROCKETRY" 3])
         "BASIC_ROCKETRY" 2) = true /\
  total_scientists resumed = 7%Z.
Proof. repeat split. Qed.


End ResearchFacts.

(** * Runs of the research system *)

Section ResearchRuns.
Import Research ResearchSpec.

(** What the loop of [update_research] does to its state, whether or not it
    runs to the end: ids are only added to the researched list, each of them
    the key of a project, without introducing a duplicate, and every project
    left is an old one, untouched or updated once. *)
Lemma update_loop_effect (eff : float) (items : Dict.t ResearchProject) :
  forall researched available completed r st,
    update_loop eff items researched available completed = (r, st) ->
    incl researched (l_researched st) /\
    (forall x, In x (l_researched st) ->
               In x researched \/ In x (Dict.keys items)) /\
    (NoDup researched -> NoDup (l_researched st)) /\
    (forall k q', In (k, q') (l_projects st) ->
       exists q, In (k, q) items /\
                 (q' = q \/ q' = snd (update_progress q eff))).
Proof.
  induction items as [|[k p] items IH]; intros researched available completed r st E.
  - inversion E; subst. simpl. repeat split; auto using incl_refl.
    intros k q' [].
  - cbn [update_loop] in E.
    destruct (update_progress p eff) as [[[|]|e] p'] eqn:Eup.
    + destruct (update_loop eff items _ _ _) as [r1 st1] eqn:E1.
      inversion E; subst. clear E. cbn.
      destruct (IH _ _ _ _ _ E1) as [Hincl [Hfrom [Hnd Hproj]]].
      assert (Hsub : incl researched
                (if str_in k researched then researched
                 else (researched ++ [k])%list)).
      { destruct (str_in k researched); [apply incl_refl | now apply incl_appl]. }
      repeat split.
      * intros x Hx. apply Hincl, Hsub, Hx.
      * intros x Hx. destruct (Hfrom x Hx) as [H|H]; [|right; now right].
        destruct (str_in k researched); [now left|].
        apply in_app_or in H. destruct H as [H|[H|[]]]; [now left|].
        right. now left.
      * intro Hn. apply Hnd. destruct (str_in k researched) eqn:Ek; [exact Hn|].
        apply str_in_not_In in Ek.
        apply NoDup_app; [exact Hn | repeat constructor; intros [] |].
        intros x Hx [Hk|[]]. subst x. exact (Ek Hx).
      * intros k0 q' [H|H].
        -- inversion H; subst. exists p. split; [now left|]. right.
           now rewrite Eup.
        -- destruct (Hproj k0 q' H) as [q [Hq Hor]]. exists q.
           split; [now right | exact Hor].
    + destruct (update_loop eff items _ _ _) as [r1 st1] eqn:E1.
      inversion E; subst. clear E. cbn.
      destruct (IH _ _ _ _ _ E1) as [Hincl [Hfrom [Hnd Hproj]]].
      repeat split; auto.
      * intros x Hx. destruct (Hfrom x Hx) as [H|H]; [now left | right; now right].
      * intros k0 q' [H|H].
        -- inversion H; subst. exists p. split; [now left|]. right.
           now rewrite Eup.
        -- destruct (Hproj k0 q' H) as [q [Hq Hor]]. exists q.
           split; [now right | exact Hor].
    + inversion E; subst. clear E. cbn.
      repeat split; auto using incl_refl.
      intros k0 q' [H|H].
      * inversion H; subst. exists p. split; [now left|]. right.
        now rewrite Eup.
      * exists q'. split; [now right | now left].
Qed.

(** The same for [update_research] as a whole. *)
Lemma update_research_effect (s : ResearchSystem) :
  let s' := snd (update_research s) in
  technologies s' = technologies s /\
  research_points s' = research_points s /\
  incl (researched_technologies s) (researched_technologies s') /\
  (forall x, In x (researched_technologies s') ->
     In x (researched_technologies s) \/ In x (Dict.keys (active_projects s))) /\
  (NoDup (researched_technologies s) -> NoDup (researched_technologies s')) /\
  (forall k q', In (k, q') (active_projects s') ->
     exists q, In (k, q) (active_projects s) /\
               (q' = q \/ q' = snd (update_progress q (efficiency s)))).
Proof.
  unfold update_research.
  destruct (update_loop _ _ _ _ _) as [r st] eqn:E.
  destruct (update_loop_effect _ _ _ _ _ _ _ E) as [Hincl [Hfrom [Hnd Hproj]]].
  destruct r as [u|e]; cbn; repeat split; auto.
  intros k q' Hin. rewrite delete_completed_filter in Hin.
  apply filter_In in Hin. now apply Hproj.
Qed.

(** One call never changes the catalog and never removes a researched id. *)
Lemma step_keeps (s : ResearchSystem) (c : call) :
  technologies (step s c) = technologies s /\
  incl (researched_technologies s) (researched_technologies (step s c)) /\
  (NoDup (researched_technologies s) ->
   NoDup (researched_technologies (step s c))).
Proof.
  destruct c as [tid n| |tid|tid n]; simpl.
  - unfold start_research.
    destruct (Dict.get tid (technologies s)) as [tech|];
      [|auto using incl_refl].
    destruct (negb _); [auto using incl_refl|].
    destruct (str_in _ _); [auto using incl_refl|].
    destruct (Z.gtb n _); [auto using incl_refl|].
    destruct (Z.gtb (cost tech) _); simpl; auto using incl_refl.
  - destruct (update_research_effect s) as [Ht [_ [Hincl [_ [Hnd _]]]]]. auto.
  - unfold pause_research.
    destruct (Dict.get tid (active_projects s)); simpl; auto using incl_refl.
  - unfold resume_research.
    destruct (Dict.get tid (active_projects s)); [|auto using incl_refl].
    destruct (Z.leb n _); simpl; auto using incl_refl.
Qed.

Lemma run_researched_incl (calls : list call) :
  forall s,
    incl (researched_technologies s) (researched_technologies (run s calls)).
Proof.
  unfold run. induction calls as [|c calls IH]; intro s; simpl.
  - apply incl_refl.
  - intros x Hx. apply IH. now apply (proj1 (proj2 (step_keeps s c))).
Qed.

(** Along every run of calls the researched list only grows: no id is ever
    removed from it, whatever the state the run starts from.  A list free
    of duplicates stays free of duplicates. *)
Theorem researched_only_grows (calls : list call) (s : ResearchSystem) :
  incl (researched_technologies s) (researched_technologies (run s calls)) /\
  (NoDup (researched_technologies s) ->
   NoDup (researched_technologies (run s calls))).
Proof.
  revert s. unfold run. induction calls as [|c calls IH]; intro s; simpl.
  - split; [apply incl_refl | tauto].
  - destruct (step_keeps s c) as [_ [Hincl Hnd']].
    destruct (IH (step s c)) as [Hrest Hnd2].
    split; [|intro Hnd; exact (Hnd2 (Hnd' Hnd))].
    intros x Hx. apply Hrest, Hincl, Hx.
Qed.

(** BASIC_ROCKETRY finishes after fifty ticks with ten scientists; from
    there LIQUID_FUEL is started and finishes after a hundred ticks, and
    a second start of BASIC_ROCKETRY is refused.  The researched list goes
    from the one id to the two. *)
Lemma researched_only_grows_witness :
  let s :=
    run init (StartResearch "BASIC_ROCKETRY" 10 :: repeat UpdateResearch 50) in
  let calls :=
    (StartResearch "LIQUID_FUEL" 10 :: repeat UpdateResearch 100
     ++ [StartResearch "BASIC_ROCKETRY" 10; UpdateResearch])%list in
  researched_technologies s = ["BASIC_ROCKETRY"] /\
  researched_technologies (run s calls) = ["BASIC_ROCKETRY"; "LIQUID_FUEL"] /\
  incl (researched_technologies s) (researched_technologies (run s calls)) /\
  NoDup (researched_technologies (run s calls)).
Proof.
  intros s calls.
  assert (Es : researched_technologies s = ["BASIC_ROCKETRY"])
    by (vm_compute; reflexivity).
  destruct (researched_only_grows calls s) as [Hincl Hnd].
  split; [exact Es|]. split; [vm_compute; reflexivity|].
  split; [exact Hincl|]. apply Hnd. rewrite Es.
  constructor; [intros [] | constructor].
Defined.

(** A technology that [is_technology_researched] reports as researched is
    reported so in every later state, and [start_research] refuses it there
    whatever the number of scientists. *)
Theorem researched_stays_rejected (calls : list call) :
  forall (s : ResearchSystem) (tech_id : string) (scientists : Z),
    is_technology_researched s tech_id = true ->
    is_technology_researched (run s calls) tech_id = true /\
    start_research (run s calls) tech_id scientists = (false, run s calls).
Proof.
  unfold run, is_technology_researched.
  induction calls as [|c calls IH]; intros s tech_id n Hin; simpl.
  - split; [exact Hin|]. unfold start_research.
    destruct (Dict.get tech_id (technologies s)) as [tech|]; [|reflexivity].
    destruct (negb _); [reflexivity|]. now rewrite Hin.
  - apply IH. apply str_in_In. destruct (step_keeps s c) as [_ [Hincl _]].
    apply Hincl. now apply str_in_In.
Qed.

Lemma researched_stays_rejected_witness :
  let s := mkSystem basic_techs [] ["BASIC_ROCKETRY"] 10 900 1.0 in
  let later := run s [StartResearch "LIQUID_FUEL" 4; UpdateResearch] in
  is_technology_researched later "BASIC_ROCKETRY" = true /\
  start_research later "BASIC_ROCKETRY" 1 = (false, later).
Proof.
  intros s later.
  apply (researched_stays_rejected
           [StartResearch "LIQUID_FUEL" 4; UpdateResearch] s "BASIC_ROCKETRY" 1).
  reflexivity.
Defined.

Lemma prerequisites_met_mono (s s' : ResearchSystem) (tech : Technology) :
  incl (researched_technologies s) (researched_technologies s') ->
  prerequisites_met s tech -> prerequisites_met s' tech.
Proof. intros Hincl H prereq Hp. apply Hincl, H, Hp. Qed.

Lemma keys_In {V : Type} (d : Dict.t V) (k : string) :
  In k (Dict.keys d) -> exists v, In (k, v) d.
Proof.
  unfold Dict.keys. intro H. apply in_map_iff in H.
  destruct H as [[k' v] [E Hin]]. simpl in E. subst. now exists v.
Qed.

Lemma ordered_step (s : ResearchSystem) (c : call) :
  ordered s -> ordered (step s c).
Proof.
  intros [Hproj Hres]. destruct c as [tid n| |tid|tid n]; simpl.
  - unfold start_research.
    destruct (Dict.get tid (technologies s)) as [tech|] eqn:Et; [|now split].
    destruct (is_available tech (researched_technologies s)) eqn:Ea; [|now split].
    simpl. destruct (str_in _ _); [now split|].
    destruct (Z.gtb n _); [now split|].
    destruct (Z.gtb (cost tech) _); [now split|].
    split; simpl; [|exact Hres].
    intros k q Hin. apply In_set in Hin. destruct Hin as [[-> ->]|Hin].
    + simpl. split; [exact Et|]. intros prereq Hp.
      exact (proj1 (is_available_spec _ _) Ea prereq Hp).
    + now apply Hproj.
  - destruct (update_research_effect s) as [Ht [_ [Hincl [Hfrom [_ Hleft]]]]].
    split.
    + intros k q' Hin. destruct (Hleft k q' Hin) as [q [Hq Hor]].
      destruct (Hproj k q Hq) as [Hget Hmet].
      assert (Etech : technology q' = technology q).
      { destruct Hor as [->| ->]; [reflexivity|].
        apply (proj1 (update_progress_keeps q (efficiency s))). }
      rewrite Ht, Etech. split; [exact Hget|].
      now apply (prerequisites_met_mono s).
    + intros t tech Hin Hget. rewrite Ht in Hget.
      apply (prerequisites_met_mono s); [exact Hincl|].
      destruct (Hfrom t Hin) as [Hold|Hkey]; [now apply (Hres t)|].
      destruct (keys_In _ _ Hkey) as [q Hq].
      destruct (Hproj t q Hq) as [Hget' Hmet].
      rewrite Hget in Hget'. inversion Hget'; subst. exact Hmet.
  - unfold pause_research.
    destruct (Dict.get tid (active_projects s)) as [p|] eqn:Ep; [|now split].
    split; simpl; [|exact Hres].
    intros k q Hin. apply In_set in Hin. destruct Hin as [[-> ->]|Hin].
    + simpl. apply Hproj. now apply get_In.
    + now apply Hproj.
  - unfold resume_research.
    destruct (Dict.get tid (active_projects s)) as [p|] eqn:Ep; [|now split].
    destruct (Z.leb n _); [|now split].
    split; simpl; [|exact Hres].
    intros k q Hin. apply In_set in Hin. destruct Hin as [[-> ->]|Hin].
    + simpl. apply Hproj. now apply get_In.
    + now apply Hproj.
Qed.

(** The research order is an invariant of every run: if every project and
    every researched technology has its prerequisites researched, the same
    holds after any sequence of calls.  No technology gets researched ahead
    of a prerequisite. *)
Theorem research_order_kept (calls : list call) :
  forall s, ordered s -> ordered (run s calls).
Proof.
  unfold run. induction calls as [|c calls IH]; intros s Ho; simpl.
  - exact Ho.
  - apply IH. now apply ordered_step.
Qed.

(** The initial system respects the order, so every state it can reach
    does; here after the start of the first technology, a tick, a start of
    the second that is refused for its prerequisite, and another tick. *)
Lemma research_order_kept_witness :
  ordered (run init [StartResearch "BASIC_ROCKETRY" 10; UpdateResearch;
                     StartResearch "LIQUID_FUEL" 2; UpdateResearch]).
Proof.
  apply (research_order_kept
           [StartResearch "BASIC_ROCKETRY" 10; UpdateResearch;
            StartResearch "LIQUID_FUEL" 2; UpdateResearch] init).
  split.
  - intros k q [].
  - intros t tech [].
Defined.

(** ** Research points *)

Lemma step_points (s : ResearchSystem) (c : call) :
  costs_nonneg s -> (0 <= research_points s)%Z ->
  (0 <= research_points (step s c) <= research_points s)%Z.
Proof.
  intros Hc Hp. destruct c as [tid n| |tid|tid n]; simpl.
  - unfold start_research.
    destruct (Dict.get tid (technologies s)) as [tech|] eqn:Et; [|simpl; lia].
    destruct (negb _); [simpl; lia|].
    destruct (str_in _ _); [simpl; lia|].
    destruct (Z.gtb n _); [simpl; lia|].
    destruct (Z.gtb_spec (cost tech) (research_points s)); [simpl; lia|].
    simpl. pose proof (Hc tid tech (get_In _ _ _ Et)). lia.
  - destruct (update_research_effect s) as [_ [Hpts _]]. rewrite Hpts. lia.
  - unfold pause_research.
    destruct (Dict.get tid (active_projects s)); simpl; lia.
  - unfold resume_research.
    destruct (Dict.get tid (active_projects s)); [|simpl; lia].
    destruct (Z.leb n _); simpl; lia.
Qed.

(** Research points are only ever spent: with no negative cost in the
    catalog, no sequence of calls raises them, and none takes them below
    zero. *)
Theorem research_points_only_spent (calls : list call) :
  forall s,
    costs_nonneg s -> (0 <= research_points s)%Z ->
    (0 <= research_points (run s calls) <= research_points s)%Z.
Proof.
  unfold run. induction calls as [|c calls IH]; intros s Hc Hp; simpl; [lia|].
  pose proof (step_points s c Hc Hp) as Hstep.
  assert (Hc' : costs_nonneg (step s c)).
  { unfold costs_nonneg. rewrite (proj1 (step_keeps s c)). exact Hc. }
  specialize (IH (step s c) Hc' (proj1 Hstep)). lia.
Qed.

Lemma research_points_only_spent_witness :
  (0 <= research_points
          (run init [StartResearch "BASIC_ROCKETRY" 10; UpdateResearch;
                     StartResearch "LIQUID_FUEL" 2])
     <= research_points init)%Z.
Proof.
  apply (research_points_only_spent
           [StartResearch "BASIC_ROCKETRY" 10; UpdateResearch;
            StartResearch "LIQUID_FUEL" 2] init).
  - intros k t [H|[H|[]]]; inversion H; subst; simpl; lia.
  - simpl. lia.
Defined.

(** ** Pausing and resuming *)

Lemma set_set {V : Type} (d : Dict.t V) (k : string) (v v' : V) :
  Dict.set k v (Dict.set k v' d) = Dict.set k v d.
Proof.
  induction d as [|[k' w] d IH]; simpl.
  - now rewrite String.eqb_refl.
  - destruct (String.eqb k k') eqn:E; simpl; rewrite E; [reflexivity|].
    now rewrite IH.
Qed.

Lemma set_same {V : Type} (d : Dict.t V) (k : string) (v : V) :
  Dict.get k d = Some v -> Dict.set k v d = d.
Proof.
  induction d as [|[k' w] d IH]; simpl; [discriminate|].
  destruct (String.eqb k k'); [now intros [= ->]|].
  intro H. now rewrite (IH H).
Qed.

(** Pausing an active project and resuming it with the scientists it had
    gives back the system one started from, provided the pool was not
    negative. *)
Theorem pause_then_resume (s : ResearchSystem) (tech_id : string)
    (p : ResearchProject) :
  Dict.get tech_id (active_projects s) = Some p ->
  status p = ACTIVE ->
  (0 <= available_scientists s)%Z ->
  fst (pause_research s tech_id) = true /\
  resume_research (snd (pause_research s tech_id)) tech_id
    (scientists_assigned p) = (true, s).
Proof.
  intros Hget Hst Hpool. unfold pause_research. rewrite Hget. cbn [fst snd].
  split; [reflexivity|].
  unfold resume_research. cbn [active_projects available_scientists].
  rewrite get_set_same.
  replace (Z.leb (scientists_assigned p)
             (available_scientists s + scientists_assigned p)) with true by lia.
  f_equal. destruct s as [techs active researched avail points eff].
  destruct p as [tech prog n st]. simpl in *. subst st.
  unfold set_scientists_assigned, set_status. simpl.
  rewrite set_set, (set_same _ _ _ Hget), Z.add_simpl_r. reflexivity.
Qed.

Lemma pause_then_resume_witness :
  let s := snd (start_research init "BASIC_ROCKETRY" 3) in
  fst (pause_research s "BASIC_ROCKETRY") = true /\
  resume_research (snd (pause_research s "BASIC_ROCKETRY")) "BASIC_ROCKETRY" 3
    = (true, s).
Proof.
  intro s.
  apply (pause_then_resume s "BASIC_ROCKETRY"
           (mkProject BASIC_ROCKETRY 0 3 ACTIVE)).
  - reflexivity.
  - reflexivity.
  - simpl. lia.
Defined.

(** ** What can be started *)

(** [start_research] accepts a request exactly when the technology is one
    of those [get_available_technologies] lists and the scientists and the
    research points suffice. *)
Theorem start_accepts_what_is_available (s : ResearchSystem) (tech_id : string)
    (scientists : Z) :
  keys_are_ids s ->
  (fst (start_research s tech_id scientists) = true <->
   exists tech,
     Dict.get tech_id (technologies s) = Some tech /\
     In tech (get_available_technologies s) /\
     (scientists <= available_scientists s)%Z /\
     (cost tech <= research_points s)%Z).
Proof.
  intro Hids. unfold start_research, get_available_technologies. split.
  - destruct (Dict.get tech_id (technologies s)) as [tech|] eqn:Et;
      [|discriminate].
    destruct (is_available tech _) eqn:Ea; [|discriminate]. simpl.
    destruct (str_in tech_id _) eqn:Er; [discriminate|].
    destruct (Z.gtb_spec scientists (available_scientists s)); [discriminate|].
    destruct (Z.gtb_spec (cost tech) (research_points s)); [discriminate|].
    intros _. exists tech. repeat split; try assumption.
    apply in_map_iff. exists (tech_id, tech). split; [reflexivity|].
    apply filter_In. split; [now apply get_In|]. simpl. now rewrite Ea, Er.
  - intros [tech [Et [Hin [Hs Hc]]]]. rewrite Et.
    apply in_map_iff in Hin. destruct Hin as [[k t] [E Hin]].
    simpl in E. subst t. apply filter_In in Hin. destruct Hin as [Hin Hcond].
    simpl in Hcond. apply andb_true_iff in Hcond. destruct Hcond as [Ea Er].
    assert (Ek : k = tech_id).
    { rewrite <- (Hids k tech Hin). apply Hids. now apply get_In. }
    subst k. rewrite Ea. simpl. apply negb_true_iff in Er. rewrite Er.
    replace (Z.gtb scientists (available_scientists s)) with false by lia.
    replace (Z.gtb (cost tech) (research_points s)) with false by lia.
    reflexivity.
Qed.

(** At the start BASIC_ROCKETRY is on the list and can be started;
    LIQUID_FUEL is not. *)
Lemma start_accepts_what_is_available_witness :
  (fst (start_research init "BASIC_ROCKETRY" 3) = true <->
   exists tech,
     Dict.get "BASIC_ROCKETRY" (technologies init) = Some tech /\
     In tech (get_available_technologies init) /\
     (3 <= available_scientists init)%Z /\
     (cost tech <= research_points init)%Z) /\
  get_available_technologies init = [BASIC_ROCKETRY].
Proof.
  split; [|reflexivity].
  apply (start_accepts_what_is_available init "BASIC_ROCKETRY" 3).
  intros k t [H|[H|[]]]; inversion H; reflexivity.
Defined.

(** ** Reported progress *)

(** An entry of a dictionary after [Dict.set]: the one written, or an old
    one. *)
Ltac written_or_old H :=
  apply In_set in H; destruct H as [[_ ->]|H].

Lemma in_progress_step (s : ResearchSystem) (c : call) :
  well_kept s -> in_progress s -> in_progress (step s c).
Proof.
  intros [Hwf [Htech [Hrt Hpaused]]] Hip.
  destruct c as [tid n| |tid|tid n]; simpl.
  - unfold start_research.
    destruct (Dict.get tid (technologies s)) as [tech|]; [|exact Hip].
    destruct (negb _); [exact Hip|].
    destruct (str_in _ _); [exact Hip|].
    destruct (Z.gtb n _); [exact Hip|].
    destruct (Z.gtb (cost tech) _); [exact Hip|].
    intros k q Hin. simpl in Hin. written_or_old Hin; [|now apply (Hip k)].
    simpl. split; [discriminate | reflexivity].
  - destruct (update_research_conserves s Hwf Hrt) as [cs [_ [Hact [Hcs _]]]].
    intros k q' Hin. rewrite Hact, Hcs in Hin. apply filter_In in Hin.
    destruct Hin as [Hin Hkeep]. unfold advanced in Hin.
    apply in_map_iff in Hin. destruct Hin as [[k' p] [E Hp]].
    simpl in E. inversion E; subst k' q'. clear E. simpl in Hkeep.
    rewrite (finished_key _ _ _ _ Hwf Hp) in Hkeep.
    apply negb_true_iff in Hkeep.
    destruct (Hip k p Hp) as [Hnc Hlt].
    destruct (status p) eqn:Est.
    + pose proof (update_progress_active p (efficiency s) Est (Hrt k p Hp)) as Hup.
      cbv zeta in Hup. unfold finishes in Hkeep. rewrite Hup in *.
      destruct (Num.geb _ 100) eqn:Eg; simpl in *; [discriminate|].
      split; [discriminate|]. unfold Num.geb in Eg. now apply leb_gt in Eg.
    + unfold update_progress. rewrite Est. simpl. rewrite Est. now split.
    + now contradiction Hnc.
  - unfold pause_research.
    destruct (Dict.get tid (active_projects s)) as [p|] eqn:Ep; [|exact Hip].
    intros k q Hin. simpl in Hin. written_or_old Hin; [|now apply (Hip k)].
    simpl. split; [discriminate|]. apply (Hip tid p). now apply get_In.
  - unfold resume_research.
    destruct (Dict.get tid (active_projects s)) as [p|] eqn:Ep; [|exact Hip].
    destruct (Z.leb n _); [|exact Hip].
    intros k q Hin. simpl in Hin. written_or_old Hin; [|now apply (Hip k)].
    simpl. split; [discriminate|]. apply (Hip tid p). now apply get_In.
Qed.

(** In a system whose books are in order and whose projects are unfinished,
    every run of calls leaves only unfinished projects in [active_projects]:
    [get_research_progress] never reports 100 or more. *)
Theorem reported_progress_below_100 (calls : list call) :
  forall s,
    well_kept s -> in_progress s ->
    forall tech_id v,
      get_research_progress (run s calls) tech_id = Some v -> v < 100.
Proof.
  assert (Hrun : forall s, well_kept s -> in_progress s ->
                           in_progress (run s calls)).
  { unfold run. induction calls as [|c calls IH]; intros s Hk Hip; simpl.
    - exact Hip.
    - apply IH; [now apply well_kept_step | now apply in_progress_step]. }
  intros s Hk Hip tech_id v Hget. unfold get_research_progress in Hget.
  destruct (Dict.get tech_id (active_projects (run s calls))) as [p|] eqn:Ep;
    [|discriminate].
  inversion Hget; subst v.
  apply (Hrun s Hk Hip tech_id p). now apply get_In.
Qed.

(** After a start with five scientists, a tick and a pause, the progress
    reported for BASIC_ROCKETRY is below 100. *)
Lemma reported_progress_below_100_witness :
  exists v,
    get_research_progress
      (run init [StartResearch "BASIC_ROCKETRY" 5; UpdateResearch;
                 PauseResearch "BASIC_ROCKETRY"]) "BASIC_ROCKETRY" = Some v /\
    v < 100.
Proof.
  eexists. split; [reflexivity|].
  apply (reported_progress_below_100
           [StartResearch "BASIC_ROCKETRY" 5; UpdateResearch;
            PauseResearch "BASIC_ROCKETRY"] init well_kept_init
           (fun k q (H : In (k, q) (active_projects init)) =>
              match H with end)
           "BASIC_ROCKETRY").
  reflexivity.
Defined.

End ResearchRuns.

(** * The research tick in floats *)

(** [binary64] on a few values: the float nearest to 0.1, the sums
    0.1 + 0.2 and 0.1 + 0.7 as Python prints them, integers and halves left
    as they are, and the smallest positive float. *)
Example binary64_values :
  Rounded.binary64 0.1 = 3602879701896397 # 36028797018963968 /\
  Rounded.binary64 (Rounded.binary64 0.1 + Rounded.binary64 0.2)
  = Rounded.binary64 0.30000000000000004 /\
  Rounded.binary64 0.3 < Rounded.binary64 0.30000000000000004 /\
  Rounded.binary64 (Rounded.binary64 0.1 + Rounded.binary64 0.7)
  = Rounded.binary64 0.7999999999999999 /\
  Rounded.binary64 0.7999999999999999 < Rounded.binary64 0.8 /\
  Rounded.binary64 10500 == 10500 /\
  Rounded.binary64 99.5 == 99.5 /\
  Rounded.binary64 (- (1 # 3)) = - (6004799503160661 # 18014398509481984) /\
  Rounded.binary64 (Rounded.pow2 (-1075) + Rounded.pow2 (-1080))
  == Rounded.pow2 (-1074) /\
  Rounded.binary64 (Rounded.pow2 (-1075)) == 0.
Proof. vm_compute. repeat split. Qed.



Section TickFacts.
Import Research ResearchSpec.




Variable round : Q -> Q.




(** With no rounding the rounded tick is the tick of [Research]. *)
Lemma exact_update_progress (p : ResearchProject) (eff : float) :
  Rounded.update_progress Rounded.exact p eff = update_progress p eff.
Proof. reflexivity. Qed.

Lemma exact_update_loop (eff : float) (items : Dict.t ResearchProject) :
  forall researched available completed,
    Rounded.update_loop Rounded.exact eff items researched available completed
    = update_loop eff items researched available completed.
Proof.
  induction items as [|[k p] items IH]; intros; [reflexivity|].
  cbn [Rounded.update_loop update_loop]. rewrite exact_update_progress.
  destruct (update_progress p eff) as [[[|]|e] p']; rewrite ?IH; reflexivity.
Qed.

Lemma exact_update_research (s : ResearchSystem) :
  Rounded.update_research Rounded.exact s = update_research s.
Proof.
  unfold Rounded.update_research, update_research.
  now rewrite exact_update_loop.
Qed.


End TickFacts.



(** Four scientists on BASIC_ROCKETRY add 0.8 a tick.  Without rounding
    the progress is 100 after 125 ticks and the project completes; in
    binary64 the 125 additions give 99.99999999999977, the project is
    still running, and it completes on the tick after. *)
Example tick_125_in_binary64 :
  let s := snd (Research.start_research Research.init "BASIC_ROCKETRY" 4) in
  Research.researched_technologies (Rounded.ticks Rounded.exact 125 s)
  = ["BASIC_ROCKETRY"] /\
  Research.researched_technologies (Rounded.ticks Rounded.binary64 125 s) = [] /\
  Research.get_research_progress (Rounded.ticks Rounded.binary64 125 s)
    "BASIC_ROCKETRY"
  = Some (439804651110399 # 4398046511104) /\
  Research.researched_technologies (Rounded.ticks Rounded.binary64 126 s)
  = ["BASIC_ROCKETRY"].
Proof. vm_compute. repeat split. Qed.


(** * The spacecraft design *)

Section SpacecraftFacts.
Import Spacecraft SpacecraftSpec.

Variable log : float -> float.

(** What [_components_overlap] computes on well-formed boxes: it answers
    [True] as soon as the extents meet on one axis. *)
Lemma components_overlap_some_axis (sx sy sz px py pz sx' sy' sz' px' py' pz' : float) :
  _components_overlap (at_xyz sx sy sz) (at_xyz px py pz)
                      (at_xyz sx' sy' sz') (at_xyz px' py' pz')
  = Return (meet_on_some_axis (at_xyz sx sy sz) (at_xyz px py pz)
                              (at_xyz sx' sy' sz') (at_xyz px' py' pz')).
Proof.
  unfold _components_overlap, meet_on_some_axis, on_axis, intervals_meet.
  cbn -[Num.ltb Num.gtb Qplus].
  destruct (Num.ltb (px + sx) px'), (Num.gtb px (px' + sx'));
    destruct (Num.ltb (py + sy) py'), (Num.gtb py (py' + sy'));
    destruct (Num.ltb (pz + sz) pz'), (Num.gtb pz (pz' + sz'));
    reflexivity.
Qed.

Lemma collision_loop_some_axis (lay : Dict.t (Dict.t float))
    (component : ComponentSpec) (position : Dict.t float) :
  is_box (size component) -> is_box position ->
  forall items : Dict.t ComponentSpec,
    (forall comp_id comp, In (comp_id, comp) items ->
       is_box (size comp) /\
       exists pos, Dict.get comp_id lay = Some pos /\ is_box pos) ->
    collision_loop items lay component position
    = Return (existsb
                (fun kv =>
                   meet_on_some_axis (size component) position (size (snd kv))
                     (Dict.get_default lay (fst kv) []))
                items).
Proof.
  intros [sx [sy [sz Hs]]] [px [py [pz Hp]]].
  induction items as [|[comp_id comp] items IH]; intro Hwp; [reflexivity|].
  destruct (Hwp comp_id comp (or_introl eq_refl))
    as [[sx' [sy' [sz' Hs']]] [pos [Hget [px' [py' [pz' Hp']]]]]].
  cbn [collision_loop existsb fst snd].
  unfold Dict.getitem, Dict.get_default. rewrite Hget. cbn [bind].
  rewrite Hs, Hp, Hs', Hp', components_overlap_some_axis. cbn [bind].
  rewrite <- Hs, <- Hp.
  destruct (meet_on_some_axis _ _ _ _); [reflexivity|].
  cbn [orb]. apply IH. intros k c Hin. apply Hwp. now right.
Qed.

(** C1 fails on the code.  A radio at the origin and a second radio ten
    metres away along x: the boxes are apart on x, so they do not overlap,
    and the second placement is rejected all the same, because the extents
    meet on y. *)
Theorem add_component_rejects_separated_boxes :
  let d0 := new_design "probe" in
  let d1 := snd (add_component log d0 BASIC_RADIO (at_xyz 0 0 0)) in
  add_component log d0 BASIC_RADIO (at_xyz 0 0 0) = (Return true, d1) /\
  Dict.keys (components d1) = ["BASIC_RADIO_0"] /\
  boxes_overlap (size BASIC_RADIO) (at_xyz 10 0 0)
                (size BASIC_RADIO) (at_xyz 0 0 0) = false /\
  on_axis "x" (size BASIC_RADIO) (at_xyz 10 0 0)
              (size BASIC_RADIO) (at_xyz 0 0 0) = false /\
  _components_overlap (size BASIC_RADIO) (at_xyz 10 0 0)
                      (size BASIC_RADIO) (at_xyz 0 0 0) = Return true /\
  add_component log d1 BASIC_RADIO (at_xyz 10 0 0) = (Return false, d1).
Proof. repeat split. Qed.

(** C9 fails on the code.  With one BASIC_ENGINE placed, adding a
    BASIC_TANK clear of it on every axis passes the collision check and
    then raises: the mass is 1500, the fuel 10000, so the dry mass is
    negative and [math.log] is called on a negative ratio.  The tank is in
    the design when the exception leaves [add_component]. *)
Theorem add_component_raises_on_catalog_parts :
  let d0 := new_design "lander" in
  let d1 := snd (add_component log d0 BASIC_ENGINE (at_xyz 0 0 0)) in
  let d2 := snd (add_component log d1 BASIC_TANK (at_xyz 10 10 10)) in
  add_component log d0 BASIC_ENGINE (at_xyz 0 0 0) = (Return true, d1) /\
  _check_collision d1 BASIC_TANK (at_xyz 10 10 10) = Return false /\
  add_component log d1 BASIC_TANK (at_xyz 10 10 10) = (Raise ValueError, d2) /\
  Dict.keys (components d2) = ["BASIC_ENGINE_0"; "BASIC_TANK_1"] /\
  _mass d2 == 1500 /\
  total_fuel (engine_loop (Dict.values (components d2))) == 10000.
Proof. repeat split. Qed.

(** ** Delta-v *)

Lemma engine_loop_no_engine (comps : list ComponentSpec) :
  (forall c, In c comps -> is_engine c = false) ->
  forall acc, num_engines (fold_left engine_step comps acc) = num_engines acc.
Proof.
  induction comps as [|c comps IH]; intros H acc; [reflexivity|].
  cbn [fold_left]. rewrite IH by (intros c' Hc'; apply H; now right).
  assert (Hc : is_engine c = false) by (apply H; now left).
  unfold is_engine in Hc. unfold engine_step.
  destruct (variant c); try reflexivity; try discriminate.
  destruct (String.eqb _ _); reflexivity.
Qed.

Lemma engine_loop_no_fuel (comps : list ComponentSpec) :
  (forall c, In c comps -> fuel_of c == 0) ->
  forall acc, total_fuel (fold_left engine_step comps acc) == total_fuel acc.
Proof.
  induction comps as [|c comps IH]; intros H acc; [reflexivity|].
  cbn [fold_left]. rewrite IH by (intros c' Hc'; apply H; now right).
  assert (Hc : fuel_of c == 0) by (apply H; now left).
  unfold fuel_of in Hc. unfold engine_step.
  destruct (variant c); try reflexivity.
  destruct (String.eqb _ _); [|reflexivity].
  cbn [total_fuel]. rewrite Hc. ring.
Qed.

(** The guard of the delta-v block fails on a design without an engine and
    on a design without fuel. *)
Lemma guard_fails (m : float) (comps : list ComponentSpec) :
  no_engine_or_no_fuel comps -> tsiolkovsky log m (engine_loop comps) = None.
Proof.
  intros [H|H]; unfold tsiolkovsky, engine_loop.
  - rewrite (engine_loop_no_engine comps H). reflexivity.
  - pose proof (engine_loop_no_fuel comps H (mkEngine 0 0 0 0%Z)) as E.
    cbn [total_fuel] in E.
    assert (Eg : Num.gtb (total_fuel (fold_left engine_step comps
                                        (mkEngine 0 0 0 0%Z))) 0 = false).
    { unfold Num.gtb. apply ltb_ge. rewrite E. apply Qle_refl. }
    rewrite Eg. now rewrite andb_false_r.
Qed.


(** [_update_statistics] writes [_delta_v] only inside the guarded block.
    On a design none of whose components is a propulsion component, or none
    of whose components is a storage component with contents "FUEL" and a
    [max_mass] other than 0, the call returns and [_delta_v] keeps the
    value it had. *)
Theorem update_statistics_keeps_delta_v (d : SpacecraftDesign) :
  no_engine_or_no_fuel (Dict.values (components d)) ->
  fst (_update_statistics log d) = Return tt /\
  _delta_v (snd (_update_statistics log d)) = _delta_v d.
Proof.
  intro H. unfold _update_statistics.
  rewrite (guard_fails _ _ H). split; reflexivity.
Qed.

(** C2 fails on the code.  Ten BASIC_ENGINEs and one BASIC_TANK give a
    mass of 10500 over a fuel mass of 10000, and [_delta_v] is set from
    [log 21].  Removing the tank leaves a design with no fuel, and
    [get_summary] still reports the delta-v computed before. *)
Theorem delta_v_survives_fuel_removal :
  let d := snd (place_all log (new_design "tug") ten_engines_one_tank) in
  let d' := snd (remove_component log d "BASIC_TANK_10") in
  fst (place_all log (new_design "tug") ten_engines_one_tank)
    = repeat (Return true) 11 /\
  _delta_v d = 2800 / 10 * 9.81 * log (10500 # 500) /\
  remove_component log d "BASIC_TANK_10" = (Return true, d') /\
  num_engines (engine_loop (Dict.values (components d'))) = 10%Z /\
  total_fuel (engine_loop (Dict.values (components d'))) == 0 /\
  Dict.get "delta_v" (get_summary d')
    = Some (2800 / 10 * 9.81 * log (10500 # 500)).
Proof. lazy. repeat split. Qed.

(** ** Aggregates *)








End SpacecraftFacts.



(** An engine and a cargo hold: there is a storage component with a
    [max_mass], but its contents are not fuel, so the delta-v the design
    carried stays. *)
Lemma update_statistics_keeps_delta_v_witness :
  let hold :=
    Spacecraft.mkComponent "CARGO_HOLD" "Cargo Hold" "" 200 1000 0 "" "STORAGE"
      (Spacecraft.at_xyz 2 2 2) 0.99 (Spacecraft.Storage 8 500 "CARGO") in
  let d :=
    Spacecraft.mkDesign "freighter"
      [("BASIC_ENGINE_0", Spacecraft.BASIC_ENGINE); ("CARGO_HOLD_1", hold)]
      [("BASIC_ENGINE_0", Spacecraft.at_xyz 0 0 0);
       ("CARGO_HOLD_1", Spacecraft.at_xyz 10 10 10)]
      0 0 0 42 0 in
  fst (Spacecraft._update_statistics SpacecraftSpec.log_unused d) = Return tt /\
  Spacecraft._delta_v
    (snd (Spacecraft._update_statistics SpacecraftSpec.log_unused d)) = 42.
Proof.
  intros hold d.
  apply (update_statistics_keeps_delta_v SpacecraftSpec.log_unused d).
  right. intros c [<-|[<-|[]]]; reflexivity.
Defined.

(** * More of the spacecraft design *)

Section SpacecraftMore.
Import Spacecraft SpacecraftSpec.

Variable log : float -> float.

(** ** The overlap test *)

(** The overlap test does not depend on which of the two boxes is the
    candidate. *)
Theorem components_overlap_symmetric (size1 pos1 size2 pos2 : Dict.t float) :
  is_box size1 -> is_box pos1 -> is_box size2 -> is_box pos2 ->
  _components_overlap size1 pos1 size2 pos2
  = _components_overlap size2 pos2 size1 pos1.
Proof.
  intros [sx [sy [sz ->]]] [px [py [pz ->]]] [sx' [sy' [sz' ->]]] [px' [py' [pz' ->]]].
  rewrite !components_overlap_some_axis. f_equal.
  unfold meet_on_some_axis, on_axis, intervals_meet, Num.gtb.
  cbn -[Num.ltb Qplus].
  destruct (Num.ltb (px + sx) px'), (Num.ltb (px' + sx') px),
           (Num.ltb (py + sy) py'), (Num.ltb (py' + sy') py),
           (Num.ltb (pz + sz) pz'), (Num.ltb (pz' + sz') pz); reflexivity.
Qed.

(** ** Placing and removing *)

Lemma update_statistics_parts (d : SpacecraftDesign) :
  components (snd (_update_statistics log d)) = components d /\
  layout (snd (_update_statistics log d)) = layout d.
Proof.
  unfold _update_statistics.
  destruct (tsiolkovsky _ _ _) as [[v|ex]|]; split; reflexivity.
Qed.

(** An accepted [add_component] has written the component and its position
    under the next id. *)
Lemma add_component_accepted (d : SpacecraftDesign) (component : ComponentSpec)
    (position : Dict.t float) :
  fst (add_component log d component position) = Return true ->
  let d1 := snd (add_component log d component position) in
  components d1 = Dict.set (next_id d component) component (components d) /\
  layout d1 = Dict.set (next_id d component) position (layout d).
Proof.
  unfold add_component. fold (next_id d component).
  destruct (_check_collision d component position) as [[|]|ex];
    try discriminate.
  match goal with
  | |- context [_update_statistics log ?d1] =>
      pose proof (update_statistics_parts d1) as [Hc Hl];
      destruct (_update_statistics log d1) as [[u|ex] d2]
  end; [|discriminate].
  intros _. simpl in *. now split.
Qed.

Lemma del_set_fresh {V : Type} (d : Dict.t V) (k : string) (v : V) :
  Dict.get k d = None -> Dict.del k (Dict.set k v d) = d.
Proof.
  unfold Dict.del. induction d as [|[k' w] d IH]; simpl.
  - now rewrite String.eqb_refl.
  - destruct (String.eqb k k') eqn:E; [discriminate|].
    intro H. simpl. rewrite E. simpl. now rewrite (IH H).
Qed.

Lemma len_set {V : Type} (d : Dict.t V) (k : string) (v : V) :
  Dict.len (Dict.set k v d)
  = if Dict.mem k d then Dict.len d else S (Dict.len d).
Proof.
  unfold Dict.len, Dict.mem. induction d as [|[k' w] d IH]; simpl; [reflexivity|].
  destruct (String.eqb k k'); simpl; [reflexivity|].
  rewrite IH. now destruct (Dict.get k d).
Qed.

(** Adding a component under an unused id and removing that id again gives
    back the components and the layout; in between, the component and its
    position can be looked up under the id. *)
Theorem add_then_remove (d : SpacecraftDesign) (component : ComponentSpec)
    (position : Dict.t float) :
  fst (add_component log d component position) = Return true ->
  Dict.get (next_id d component) (components d) = None ->
  Dict.get (next_id d component) (layout d) = None ->
  let d1 := snd (add_component log d component position) in
  let d2 := snd (remove_component log d1 (next_id d component)) in
  Dict.get (next_id d component) (components d1) = Some component /\
  Dict.get (next_id d component) (layout d1) = Some position /\
  fst (remove_component log d1 (next_id d component)) <> Return false /\
  components d2 = components d /\
  layout d2 = layout d.
Proof.
  intros Hok Hc Hl d1 d2.
  destruct (add_component_accepted d component position Hok) as [Ec El].
  fold d1 in Ec, El.
  assert (Hgc : Dict.get (next_id d component) (components d1) = Some component)
    by (rewrite Ec; apply get_set_same).
  assert (Hgl : Dict.get (next_id d component) (layout d1) = Some position)
    by (rewrite El; apply get_set_same).
  split; [exact Hgc|]. split; [exact Hgl|].
  subst d2. unfold remove_component, Dict.mem. rewrite Hgc, Hgl.
  match goal with
  | |- context [_update_statistics log ?d3] =>
      pose proof (update_statistics_parts d3) as [Hc3 Hl3];
      destruct (_update_statistics log d3) as [[u|ex] d4]
  end; simpl in *; rewrite Hc3, Hl3, Ec, El;
    (split; [discriminate|]); split; now apply del_set_fresh.
Qed.

Lemma lone_component_skips_delta_v (c : ComponentSpec) (m : float) :
  tsiolkovsky log m (engine_loop [c]) = None.
Proof.
  unfold tsiolkovsky, engine_loop, engine_step. cbn [fold_left].
  destruct (variant c) as [ | ? ? ? ? | ? ? | ? ? ct | ? ? | ? ? ? ];
    try reflexivity.
  destruct (String.eqb ct "FUEL"); reflexivity.
Qed.

(** The first component is always placed: on a design without components
    [add_component] returns [True] for every component and every position
    dictionary, stores both under the id ending in [_0], and raises
    nothing. *)
Theorem first_component_is_placed (d : SpacecraftDesign)
    (component : ComponentSpec) (position : Dict.t float) :
  components d = [] ->
  let d1 := snd (add_component log d component position) in
  fst (add_component log d component position) = Return true /\
  components d1 = [(String.append (id component) "_0", component)] /\
  Dict.get (String.append (id component) "_0") (layout d1) = Some position.
Proof.
  intro Hempty. unfold add_component, _check_collision. rewrite Hempty.
  cbn [collision_loop Dict.len List.length Dict.set].
  change (String.append "_" (str_of_nat 0)) with "_0".
  unfold _update_statistics. cbn [components with_parts Dict.values map].
  rewrite lone_component_skips_delta_v. cbn.
  repeat split. apply get_set_same.
Qed.

(** An accepted [add_component] takes its id from the number of components.
    When that id is in use (a component was removed before), the component
    stored under it is replaced and the count does not grow. *)
Theorem add_component_count (d : SpacecraftDesign) (component : ComponentSpec)
    (position : Dict.t float) :
  fst (add_component log d component position) = Return true ->
  let d1 := snd (add_component log d component position) in
  Dict.get (next_id d component) (components d1) = Some component /\
  Dict.len (components d1)
  = (if Dict.mem (next_id d component) (components d)
     then Dict.len (components d)
     else S (Dict.len (components d))) /\
  Dict.get "component_count" (get_summary d1)
  = Some (inject_Z (Z.of_nat (Dict.len (components d1)))) /\
  (forall other, other <> next_id d component ->
     Dict.get other (components d1) = Dict.get other (components d)).
Proof.
  intros Hok d1.
  destruct (add_component_accepted d component position Hok) as [Ec _].
  fold d1 in Ec. split; [|split; [|split]].
  - rewrite Ec. apply get_set_same.
  - rewrite Ec. apply len_set.
  - reflexivity.
  - intros other Hne. rewrite Ec. now apply get_set_other.
Qed.

(** ** The designer *)

(** The designer drops every component at depth 0.  Once a design holds a
    component placed by the designer, every further drop is rejected,
    wherever on the canvas it lands: the two always meet on the y axis. *)
Theorem designer_rejects_second_drop (d : SpacecraftDesign) (k : string)
    (placed component : ComponentSpec) (cx0 cy0 depth0 depth cx cy : float) :
  well_placed d ->
  In (k, placed) (components d) ->
  Dict.get k (layout d) = Some (designer_position cx0 cy0) ->
  Dict.get "y" (size placed) = Some depth0 -> 0 <= depth0 ->
  is_box (size component) ->
  Dict.get "y" (size component) = Some depth -> 0 <= depth ->
  _add_component_to_design log (Some d) component cx cy = Some (Return false, d).
Proof.
  intros Hwp Hin Hpos Hy0 Hd0 Hbox Hy Hd.
  assert (Hdrop : is_box (designer_position cx cy))
    by (exists (cx / 20), 0, (cy / 20); reflexivity).
  unfold _add_component_to_design, add_component, _check_collision.
  rewrite (collision_loop_some_axis (layout d) component _ Hbox Hdrop
             (components d) Hwp).
  assert (Hmeet : existsb
            (fun kv =>
               meet_on_some_axis (size component) (designer_position cx cy)
                 (size (snd kv)) (Dict.get_default (layout d) (fst kv) []))
            (components d) = true).
  { apply existsb_exists. exists (k, placed). split; [exact Hin|].
    cbn [fst snd]. unfold Dict.get_default. rewrite Hpos.
    destruct (Hwp k placed Hin) as [[sx [sy [sz Es]]] _].
    destruct Hbox as [sx' [sy' [sz' Es']]].
    rewrite Es in Hy0 |- *. rewrite Es' in Hy |- *.
    cbn in Hy0, Hy. inversion Hy0; subst sy. inversion Hy; subst sy'.
    assert (Eon : on_axis "y" (at_xyz sx' depth sz') (designer_position cx cy)
                    (at_xyz sx depth0 sz) (designer_position cx0 cy0) = true).
    { unfold on_axis, intervals_meet, Num.gtb. cbn -[Num.ltb Qplus].
      replace (Num.ltb (0 + depth) 0) with false
        by (symmetry; apply ltb_ge; lra).
      replace (Num.ltb (0 + depth0) 0) with false
        by (symmetry; apply ltb_ge; lra).
      reflexivity. }
    unfold meet_on_some_axis. cbn [existsb]. rewrite Eon.
    cbn [orb]. apply orb_true_r. }
  rewrite Hmeet. reflexivity.
Qed.

End SpacecraftMore.

Lemma components_overlap_symmetric_witness :
  Spacecraft._components_overlap (Spacecraft.size Spacecraft.BASIC_RADIO) (Spacecraft.at_xyz 0 0 0)
                      (Spacecraft.size Spacecraft.BASIC_TANK) (Spacecraft.at_xyz 5 5 5)
  = Spacecraft._components_overlap (Spacecraft.size Spacecraft.BASIC_TANK) (Spacecraft.at_xyz 5 5 5)
                        (Spacecraft.size Spacecraft.BASIC_RADIO) (Spacecraft.at_xyz 0 0 0).
Proof.
  apply (components_overlap_symmetric (Spacecraft.size Spacecraft.BASIC_RADIO) (Spacecraft.at_xyz 0 0 0)
           (Spacecraft.size Spacecraft.BASIC_TANK) (Spacecraft.at_xyz 5 5 5)).
  - exists 0.3, 0.3, 0.3. reflexivity.
  - exists 0, 0, 0. reflexivity.
  - exists 2, 2, 4. reflexivity.
  - exists 5, 5, 5. reflexivity.
Defined.

(** * The component library *)

Section LibraryFacts.
Import Spacecraft.

Lemma get_app {V : Type} (a b : Dict.t V) (k : string) :
  Dict.get k (a ++ b)%list
  = match Dict.get k a with Some v => Some v | None => Dict.get k b end.
Proof.
  induction a as [|[k' v] a IH]; simpl; [reflexivity|].
  destruct (String.eqb k k'); [reflexivity | exact IH].
Qed.

Lemma set_fresh_app {V : Type} (d : Dict.t V) (k : string) (v : V) :
  Dict.get k d = None -> Dict.set k v d = (d ++ [(k, v)])%list.
Proof.
  induction d as [|[k' w] d IH]; simpl; [reflexivity|].
  destruct (String.eqb k k'); [discriminate|].
  intro H. now rewrite (IH H).
Qed.

Lemma available_fold (researched : list string) (library : Dict.t ComponentSpec) :
  forall available : Dict.t ComponentSpec,
    Dict.wf library ->
    (forall k, In k (Dict.keys library) -> Dict.get k available = None) ->
    fold_left
      (fun available kv =>
         if unlocked researched (snd kv)
         then Dict.set (fst kv) (snd kv) available
         else available)
      library available
    = (available ++ filter (fun kv => unlocked researched (snd kv)) library)%list.
Proof.
  unfold Dict.wf, Dict.keys.
  induction library as [|[k c] library IH]; intros available Hwf Hfresh; simpl.
  - now rewrite app_nil_r.
  - inversion Hwf as [|? ? Hnot Hwf']; subst.
    destruct (unlocked researched c).
    + rewrite (set_fresh_app available k c) by (apply Hfresh; now left).
      rewrite IH; [now rewrite <- app_assoc | exact Hwf' |].
      intros k' Hk'. rewrite get_app, (Hfresh k') by (now right). simpl.
      destruct (String.eqb k' k) eqn:E; [|reflexivity].
      apply String.eqb_eq in E. subst k'. contradiction.
    + apply IH; [exact Hwf'|]. intros k' Hk'. apply Hfresh. now right.
Qed.

(** On a library with distinct keys, the available components are the
    unlocked entries of the library, in the order of the library. *)
Lemma get_available_components_filter (library : Dict.t ComponentSpec)
    (researched : list string) :
  Dict.wf library ->
  get_available_components library researched
  = filter (fun kv => unlocked researched (snd kv)) library.
Proof.
  intro Hwf. unfold get_available_components.
  rewrite (available_fold researched library Dict.empty Hwf); [reflexivity|].
  reflexivity.
Qed.

Lemma get_filter {V : Type} (f : V -> bool) (d : Dict.t V) (k : string) :
  Dict.wf d ->
  Dict.get k (filter (fun kv => f (snd kv)) d)
  = match Dict.get k d with
    | Some v => if f v then Some v else None
    | None => None
    end.
Proof.
  unfold Dict.wf, Dict.keys.
  induction d as [|[k' v] d IH]; simpl; intro Hwf; [reflexivity|].
  inversion Hwf as [|? ? Hnot Hwf']; subst.
  destruct (String.eqb k k') eqn:E.
  - apply String.eqb_eq in E. subst k'.
    destruct (f v); simpl; [now rewrite String.eqb_refl|].
    rewrite (IH Hwf').
    assert (Hnone : Dict.get k d = None) by (now apply get_None_keys).
    now rewrite Hnone.
  - destruct (f v); simpl; [rewrite E|]; now apply IH.
Qed.

Lemma unlocked_mono (r1 r2 : list string) (c : ComponentSpec) :
  incl r1 r2 -> unlocked r1 c = true -> unlocked r2 c = true.
Proof.
  unfold unlocked. intros Hincl H. apply orb_true_iff in H.
  apply orb_true_iff. destruct H as [H|H]; [now left|]. right.
  apply str_in_In. apply Hincl. now apply str_in_In.
Qed.

(** What the factory offers, on a library with distinct keys: only entries
    of the library, every entry without a technology requirement, and
    never fewer after further research: a component that is offered stays
    offered along every run of the research system. *)
Theorem offered_components_stay_offered (f : SpacecraftFactory)
    (rs : Research.ResearchSystem) (calls : list Research.call)
    (k : string) (c : ComponentSpec) :
  Dict.wf (component_library f) ->
  (Dict.get k (factory_available_components f rs) = Some c ->
   get_component_by_id (component_library f) k = Some c) /\
  (get_component_by_id (component_library f) k = Some c ->
   tech_requirement c = "" ->
   Dict.get k (factory_available_components f rs) = Some c) /\
  (Dict.get k (factory_available_components f rs) = Some c ->
   Dict.get k (factory_available_components f (Research.run rs calls)) = Some c).
Proof.
  intro Hwf. unfold factory_available_components, get_component_by_id.
  rewrite !get_available_components_filter by exact Hwf.
  rewrite !(get_filter _ _ _ Hwf).
  destruct (Dict.get k (component_library f)) as [c0|]; [|repeat split; discriminate].
  repeat split.
  - destruct (unlocked _ c0); [tauto | discriminate].
  - intros [= ->] Hreq. unfold unlocked. rewrite Hreq. reflexivity.
  - destruct (unlocked (Research.researched_technologies rs) c0) eqn:Eu;
      [|discriminate].
    intro H. rewrite (unlocked_mono _ _ c0 (run_researched_incl calls rs) Eu).
    exact H.
Qed.

End LibraryFacts.

(** The engine needs BASIC_ROCKETRY: offered once that is researched, it is
    still offered after LIQUID_FUEL has been started and advanced. *)
Lemma offered_components_stay_offered_witness :
  let rs :=
    Research.mkSystem Research.basic_techs [] ["BASIC_ROCKETRY"] 10 900 1.0 in
  let later :=
    Research.run rs [Research.StartResearch "LIQUID_FUEL" 4;
                     Research.UpdateResearch] in
  Dict.get "BASIC_ENGINE"
    (Spacecraft.factory_available_components Spacecraft.new_factory later)
  = Some Spacecraft.BASIC_ENGINE.
Proof.
  intros rs later.
  apply (offered_components_stay_offered Spacecraft.new_factory rs
           [Research.StartResearch "LIQUID_FUEL" 4; Research.UpdateResearch]
           "BASIC_ENGINE" Spacecraft.BASIC_ENGINE).
  - repeat constructor; simpl; intuition discriminate.
  - reflexivity.
Defined.

(** An engine is placed on an empty design even with an empty position
    dictionary. *)
Lemma first_component_is_placed_witness :
  let d := Spacecraft.new_design "probe" in
  let d1 :=
    snd (Spacecraft.add_component SpacecraftSpec.log_unused d
           Spacecraft.BASIC_ENGINE []) in
  fst (Spacecraft.add_component SpacecraftSpec.log_unused d
         Spacecraft.BASIC_ENGINE []) = Return true /\
  Spacecraft.components d1 = [("BASIC_ENGINE_0", Spacecraft.BASIC_ENGINE)] /\
  Dict.get "BASIC_ENGINE_0" (Spacecraft.layout d1) = Some [].
Proof.
  intros d d1.
  apply (first_component_is_placed SpacecraftSpec.log_unused d
           Spacecraft.BASIC_ENGINE []).
  reflexivity.
Defined.

(** Two radios placed, the first removed, a third added: the third takes
    the id of the second, which is gone, and the count stays at one. *)
Lemma add_component_count_witness :
  let d := SpacecraftSpec.one_radio_left SpacecraftSpec.log_unused in
  let d1 :=
    snd (Spacecraft.add_component SpacecraftSpec.log_unused d
           Spacecraft.BASIC_RADIO (Spacecraft.at_xyz 20 20 20)) in
  Dict.keys (Spacecraft.components d) = ["BASIC_RADIO_1"] /\
  SpacecraftSpec.next_id d Spacecraft.BASIC_RADIO = "BASIC_RADIO_1" /\
  Dict.len (Spacecraft.components d1) = 1%nat /\
  Spacecraft.layout d1
    = [("BASIC_RADIO_1", Spacecraft.at_xyz 20 20 20)].
Proof.
  intros d d1.
  destruct (add_component_count SpacecraftSpec.log_unused d
              Spacecraft.BASIC_RADIO (Spacecraft.at_xyz 20 20 20) eq_refl)
    as [_ [Hlen _]].
  split; [reflexivity|]. split; [reflexivity|].
  split; [exact Hlen | reflexivity].
Defined.

(** A radio dropped by the designer, then a tank dropped elsewhere on the
    canvas: the tank is rejected. *)
Lemma designer_rejects_second_drop_witness :
  let d :=
    snd (Spacecraft.add_component SpacecraftSpec.log_unused
           (Spacecraft.new_design "New Design") Spacecraft.BASIC_RADIO
           (Spacecraft.designer_position 100 100)) in
  Spacecraft._add_component_to_design SpacecraftSpec.log_unused (Some d)
    Spacecraft.BASIC_TANK 400 500 = Some (Return false, d).
Proof.
  intro d.
  apply (designer_rejects_second_drop SpacecraftSpec.log_unused d
           "BASIC_RADIO_0" Spacecraft.BASIC_RADIO Spacecraft.BASIC_TANK
           100 100 0.3 2 400 500).
  - intros comp_id comp [H|[]]. inversion H; subst. split.
    + exists 0.3, 0.3, 0.3. reflexivity.
    + exists (Spacecraft.designer_position 100 100). split; [reflexivity|].
      exists (100 / 20), 0, (100 / 20). reflexivity.
  - left. reflexivity.
  - reflexivity.
  - reflexivity.
  - intro H. discriminate H.
  - exists 2, 2, 4. reflexivity.
  - reflexivity.
  - intro H. discriminate H.
Defined.

Lemma add_then_remove_witness :
  let d := Spacecraft.new_design "probe" in
  let cid := SpacecraftSpec.next_id d Spacecraft.BASIC_RADIO in
  let d1 :=
    snd (Spacecraft.add_component SpacecraftSpec.log_unused d
           Spacecraft.BASIC_RADIO (Spacecraft.at_xyz 0 0 0)) in
  let d2 := snd (Spacecraft.remove_component SpacecraftSpec.log_unused d1 cid) in
  Dict.get cid (Spacecraft.components d1) = Some Spacecraft.BASIC_RADIO /\
  Dict.get cid (Spacecraft.layout d1) = Some (Spacecraft.at_xyz 0 0 0) /\
  fst (Spacecraft.remove_component SpacecraftSpec.log_unused d1 cid)
    <> Return false /\
  Spacecraft.components d2 = Spacecraft.components d /\
  Spacecraft.layout d2 = Spacecraft.layout d.
Proof.
  intros d cid d1 d2.
  apply (add_then_remove SpacecraftSpec.log_unused d Spacecraft.BASIC_RADIO
           (Spacecraft.at_xyz 0 0 0)); reflexivity.
Defined.


(** * The design in floats *)

Section DesignInFloats.
Import Spacecraft SpacecraftSpec.

Variable round : Q -> Q.
Variable log : float -> float.

(** With no rounding the rounded collision test is that of [Spacecraft]. *)
Lemma exact_check_collision (d : SpacecraftDesign) (component : ComponentSpec)
    (position : Dict.t float) :
  Rounded._check_collision Rounded.exact d component position
  = _check_collision d component position.
Proof.
  unfold Rounded._check_collision, _check_collision.
  induction (components d) as [|[k c] items IH]; [reflexivity|].
  cbn [Rounded.collision_loop collision_loop]. now rewrite IH.
Qed.

Lemma exact_update_statistics (d : SpacecraftDesign) :
  Rounded._update_statistics Rounded.exact log d = _update_statistics log d.
Proof.
  unfold Rounded._update_statistics, _update_statistics.
  assert (Eb : forall comps acc,
             fold_left (Rounded.base_step Rounded.exact) comps acc
             = fold_left base_step comps acc).
  { induction comps as [|c comps IH]; intro acc; [reflexivity|].
    cbn [fold_left]. rewrite IH. reflexivity. }
  assert (Ee : forall comps acc,
             fold_left (Rounded.engine_step Rounded.exact) comps acc
             = fold_left engine_step comps acc).
  { induction comps as [|c comps IH]; intro acc; [reflexivity|].
    cbn [fold_left]. rewrite IH. reflexivity. }
  unfold Rounded.base_loop, Rounded.engine_loop, base_loop, engine_loop.
  rewrite Eb, Ee. reflexivity.
Qed.

Lemma exact_add_component (d : SpacecraftDesign) (component : ComponentSpec)
    (position : Dict.t float) :
  Rounded.add_component Rounded.exact log d component position
  = add_component log d component position.
Proof.
  unfold Rounded.add_component, add_component.
  rewrite exact_check_collision.
  destruct (_check_collision d component position) as [[|]|ex];
    reflexivity.
Qed.

(** ** The collision test *)

Lemma float_overlap_some_axis
    (sx sy sz px py pz sx' sy' sz' px' py' pz' : float) :
  Rounded._components_overlap round (at_xyz sx sy sz) (at_xyz px py pz)
                              (at_xyz sx' sy' sz') (at_xyz px' py' pz')
  = Return (float_meet_on_some_axis round
              (at_xyz sx sy sz) (at_xyz px py pz)
              (at_xyz sx' sy' sz') (at_xyz px' py' pz')).
Proof.
  unfold Rounded._components_overlap, float_meet_on_some_axis, float_on_axis,
    float_intervals_meet.
  cbn -[Num.ltb Num.gtb Qplus Rounded.add]. unfold Rounded.add.
  destruct (Num.ltb (round (px + sx)) px'), (Num.gtb px (round (px' + sx')));
    destruct (Num.ltb (round (py + sy)) py'), (Num.gtb py (round (py' + sy')));
    destruct (Num.ltb (round (pz + sz)) pz'), (Num.gtb pz (round (pz' + sz')));
    reflexivity.
Qed.

Lemma float_collision_some_axis (lay : Dict.t (Dict.t float))
    (component : ComponentSpec) (position : Dict.t float) :
  is_box (size component) -> is_box position ->
  forall items : Dict.t ComponentSpec,
    (forall comp_id comp, In (comp_id, comp) items ->
       is_box (size comp) /\
       exists pos, Dict.get comp_id lay = Some pos /\ is_box pos) ->
    Rounded.collision_loop round items lay component position
    = Return (existsb
                (fun kv =>
                   float_meet_on_some_axis round (size component) position
                     (size (snd kv)) (Dict.get_default lay (fst kv) []))
                items).
Proof.
  intros [sx [sy [sz Hs]]] [px [py [pz Hp]]].
  induction items as [|[comp_id comp] items IH]; intro Hwp; [reflexivity|].
  destruct (Hwp comp_id comp (or_introl eq_refl))
    as [[sx' [sy' [sz' Hs']]] [pos [Hget [px' [py' [pz' Hp']]]]]].
  cbn [Rounded.collision_loop existsb fst snd].
  unfold Dict.getitem, Dict.get_default. rewrite Hget. cbn [bind].
  rewrite Hs, Hp, Hs', Hp', float_overlap_some_axis. cbn [bind].
  rewrite <- Hs, <- Hp.
  destruct (float_meet_on_some_axis _ _ _ _ _); [reflexivity|].
  cbn [orb]. apply IH. intros k c Hin. apply Hwp. now right.
Qed.

(** What [add_component] does decide on, in the arithmetic of the code: on
    a design whose components all have a size and a place with x, y and z,
    a candidate is rejected exactly when, on at least one axis, neither
    interval ends before the other begins, each end being the float sum of
    a position and a size.  Whatever the rounding, an accepted candidate is
    stored under the next id. *)
Theorem add_component_rejects_iff_some_axis (d : SpacecraftDesign)
    (component : ComponentSpec) (position : Dict.t float) :
  well_placed d -> is_box (size component) -> is_box position ->
  (float_meets_some_placed round d component position = true ->
   Rounded.add_component round log d component position = (Return false, d)) /\
  (float_meets_some_placed round d component position = false ->
   fst (Rounded.add_component round log d component position) <> Return false /\
   components (snd (Rounded.add_component round log d component position))
   = Dict.set (next_id d component) component (components d)).
Proof.
  intros Hwp Hs Hp.
  pose proof (float_collision_some_axis (layout d) component position Hs Hp
                (components d) Hwp) as Hloop.
  fold (float_meets_some_placed round d component position) in Hloop.
  unfold Rounded.add_component, Rounded._check_collision. rewrite Hloop.
  split; intro Hm; rewrite Hm; [reflexivity|].
  unfold Rounded._update_statistics.
  destruct (Rounded.tsiolkovsky _ _ _ _) as [[v|ex]|]; cbn [fst snd components];
    (split; [discriminate | reflexivity]).
Qed.

(** ** Delta-v *)

Lemma fold_left_flat_map {A B : Type} (f : B -> A -> B) (g : ComponentSpec -> list A)
    (c : ComponentSpec) (comps : list ComponentSpec) (acc : B) :
  fold_left f (flat_map g (c :: comps)) acc
  = fold_left f (flat_map g comps) (fold_left f (g c) acc).
Proof. cbn [flat_map]. apply fold_left_app. Qed.

(** The accumulators of the two loops are the float sums of the masses, of
    the specific impulses of the engines and of the fuel masses of the
    fuel tanks, and the number of engines. *)
Lemma base_loop_mass (comps : list ComponentSpec) :
  forall acc,
    b_mass (fold_left (Rounded.base_step round) comps acc)
    = fold_left (fun a x => round (a + x)) (map mass comps) (b_mass acc).
Proof.
  induction comps as [|c comps IH]; intro acc; [reflexivity|].
  cbn [fold_left map]. rewrite IH. reflexivity.
Qed.

Lemma engine_loop_sums (comps : list ComponentSpec) :
  forall acc,
    let e := fold_left (Rounded.engine_step round) comps acc in
    num_engines e = (num_engines acc + Z.of_nat (List.length (isps comps)))%Z /\
    avg_isp e = fold_left (fun a x => round (a + x)) (isps comps) (avg_isp acc) /\
    total_fuel e
    = fold_left (fun a x => round (a + x)) (fuels comps) (total_fuel acc).
Proof.
  induction comps as [|c comps IH]; intro acc.
  - cbn. repeat split. lia.
  - cbn [fold_left]. destruct (IH (Rounded.engine_step round acc c))
      as [Hn [Hi Hf]].
    cbv zeta in *. rewrite Hn, Hi, Hf. clear IH Hn Hi Hf.
    unfold isps, fuels. rewrite !fold_left_flat_map.
    cbn [flat_map]. rewrite length_app.
    unfold Rounded.engine_step, Rounded.add.
    destruct (variant c); cbn [num_engines avg_isp total_fuel fold_left
                               List.length app];
      try (repeat split; lia).
    destruct (String.eqb _ _); cbn [num_engines avg_isp total_fuel fold_left
                                    List.length app];
      repeat split; lia.
Qed.

(** When the design has an engine and fuel and nothing raises, [_delta_v]
    is the value of the rocket equation: the float sum of the specific
    impulses of the propulsion components divided by their number, times
    9.81, times the logarithm of the mass over the dry mass, where the mass
    is the float sum of the component masses and the dry mass is that less
    the float sum of the [max_mass] of the storage components with contents
    "FUEL". *)
Theorem update_statistics_sets_delta_v (d : SpacecraftDesign) :
  let comps := Dict.values (components d) in
  let engines := Z.of_nat (List.length (isps comps)) in
  let isp := running_sum round (isps comps) in
  let fuel := running_sum round (fuels comps) in
  let m := running_sum round (map mass comps) in
  let dry := round (m - fuel) in
  let ratio := round (m / dry) in
  (0 < engines)%Z -> 0 < fuel -> ~ dry == 0 -> 0 < ratio ->
  fst (Rounded._update_statistics round log d) = Return tt /\
  _mass (snd (Rounded._update_statistics round log d)) = m /\
  _delta_v (snd (Rounded._update_statistics round log d))
  = round (round (round (isp / round (inject_Z engines)) * round 9.81)
           * log ratio).
Proof.
  intros comps engines isp fuel m dry ratio Hn Hf Hd Hr.
  destruct (engine_loop_sums comps (mkEngine 0 0 0 0%Z)) as [En [Ei Ef]].
  cbv zeta in En, Ei, Ef. cbn [num_engines avg_isp total_fuel] in En, Ei, Ef.
  pose proof (base_loop_mass comps (mkBase 0 0 0 1.0)) as Em.
  cbn [b_mass] in Em.
  unfold Rounded._update_statistics, Rounded.tsiolkovsky.
  fold comps. unfold Rounded.base_loop, Rounded.engine_loop.
  rewrite En, Ei, Ef, Em.
  fold (running_sum round (isps comps)). fold isp.
  fold (running_sum round (fuels comps)). fold fuel.
  fold (running_sum round (map mass comps)). fold m.
  change (0 + Z.of_nat (List.length (isps comps)))%Z with engines.
  replace (Z.gtb engines 0) with true by lia.
  apply gtb_gt in Hf. rewrite Hf. cbn [andb].
  unfold Rounded.truediv, Rounded.sub, Rounded.div, Rounded.mul,
    Rounded.of_int, Rounded.literal, Num.eqb.
  fold dry.
  destruct (Qeq_bool dry 0) eqn:E.
  - apply Qeq_bool_iff in E. contradiction.
  - cbn [bind]. fold ratio. unfold Rounded.math_log.
    apply leb_gt in Hr. rewrite Hr. cbn [bind fst snd _mass _delta_v].
    repeat split.
Qed.

End DesignInFloats.

(** A plate 0.7 wide at x = 0.1 beside a block at x = 0.8, clear of it on
    y and z.  In binary64 0.1 + 0.7 is 0.7999999999999999, below 0.8: the
    plate ends before the block begins and is accepted.  The same plate at
    x = 0.2 reaches into the block and is rejected. *)
Lemma add_component_rejects_iff_some_axis_witness :
  let b64 := Rounded.binary64 in
  let block :=
    Spacecraft.mkComponent "BLOCK" "Block" "" 10 100 0 "" "CONTROL"
      (Spacecraft.at_xyz 1 1 1) 0.99 Spacecraft.Plain in
  let plate :=
    Spacecraft.mkComponent "PLATE" "Plate" "" 5 50 0 "" "CONTROL"
      (Spacecraft.at_xyz (b64 0.7) (b64 0.5) (b64 0.5)) 0.99 Spacecraft.Plain in
  let d :=
    snd (Spacecraft.add_component SpacecraftSpec.log_unused
           (Spacecraft.new_design "probe") block
           (Spacecraft.at_xyz (b64 0.8) 0 0)) in
  let beside := Spacecraft.at_xyz (b64 0.1) 5 5 in
  let inside := Spacecraft.at_xyz (b64 0.2) 5 5 in
  (fst (Rounded.add_component b64 SpacecraftSpec.log_unused d plate beside)
   <> Return false /\
   Spacecraft.components
     (snd (Rounded.add_component b64 SpacecraftSpec.log_unused d plate beside))
   = [("BLOCK_0", block); ("PLATE_1", plate)]) /\
  Rounded.add_component b64 SpacecraftSpec.log_unused d plate inside
  = (Return false, d).
Proof.
  intros b64 block plate d beside inside.
  assert (Hwp : SpacecraftSpec.well_placed d).
  { intros comp_id comp [H|[]]. inversion H; subst. split.
    - exists 1, 1, 1. reflexivity.
    - exists (Spacecraft.at_xyz (b64 0.8) 0 0). split; [reflexivity|].
      exists (b64 0.8), 0, 0. reflexivity. }
  assert (Hs : SpacecraftSpec.is_box (Spacecraft.size plate))
    by (exists (b64 0.7), (b64 0.5), (b64 0.5); reflexivity).
  split.
  - apply (add_component_rejects_iff_some_axis b64 SpacecraftSpec.log_unused
             d plate beside Hwp Hs).
    + exists (b64 0.1), 5, 5. reflexivity.
    + vm_compute. reflexivity.
  - apply (add_component_rejects_iff_some_axis b64 SpacecraftSpec.log_unused
             d plate inside Hwp Hs).
    + exists (b64 0.2), 5, 5. reflexivity.
    + vm_compute. reflexivity.
Defined.

(** The same placement with the decimals read as exact rationals: 0.1 + 0.7
    is 0.8, the plate touches the block on x and [Spacecraft.add_component]
    rejects it, where the code, computing in binary64, accepts it. *)
Example touching_boxes_without_rounding :
  let block :=
    Spacecraft.mkComponent "BLOCK" "Block" "" 10 100 0 "" "CONTROL"
      (Spacecraft.at_xyz 1 1 1) 0.99 Spacecraft.Plain in
  let plate :=
    Spacecraft.mkComponent "PLATE" "Plate" "" 5 50 0 "" "CONTROL"
      (Spacecraft.at_xyz 0.7 0.5 0.5) 0.99 Spacecraft.Plain in
  let d :=
    snd (Spacecraft.add_component SpacecraftSpec.log_unused
           (Spacecraft.new_design "probe") block (Spacecraft.at_xyz 0.8 0 0)) in
  Spacecraft.add_component SpacecraftSpec.log_unused d plate
    (Spacecraft.at_xyz 0.1 5 5)
  = (Return false, d).
Proof. vm_compute. reflexivity. Qed.

(** Ten engines and one tank in binary64: ten engines, a fuel mass of
    10000 under a mass of 10500, a dry mass of 500 and a ratio of 21; the
    statistics are recomputed without a raise, and the delta-v is 280 times
    9.81 times the logarithm of 21 (here its stand-in, 20). *)
Lemma update_statistics_sets_delta_v_witness :
  let d :=
    snd (SpacecraftSpec.place_all SpacecraftSpec.log_unused
           (Spacecraft.new_design "tug") SpacecraftSpec.ten_engines_one_tank) in
  let after :=
    Rounded._update_statistics Rounded.binary64 SpacecraftSpec.log_tangent d in
  fst after = Return tt /\
  Spacecraft._mass (snd after) == 10500 /\
  Spacecraft._delta_v (snd after)
  == Rounded.binary64 (Rounded.binary64 (280 * Rounded.binary64 9.81) * 20).
Proof.
  intros d after.
  destruct (update_statistics_sets_delta_v Rounded.binary64
              SpacecraftSpec.log_tangent d) as [Hret [Hm Hdv]].
  - reflexivity.
  - reflexivity.
  - intro H. vm_compute in H. discriminate H.
  - reflexivity.
  - split; [exact Hret|]. split.
    + subst after. rewrite Hm. vm_compute. reflexivity.
    + subst after. rewrite Hdv. vm_compute. reflexivity.
Defined.

(** * The mission controller *)

Section MissionFacts.
Import Mission MissionSpec.





(** ** The status check *)

(** An abort of a running mission: the reset writes the clock, the data and
    the flags and then fails at the orbit display, so the call raises and
    the event log keeps its entries, the abort message last. *)
Lemma abort_mission_resets (s : MissionController) :
  mission_active s = true ->
  fst (abort_mission s) = Raise AttributeError /\
  mission_active (snd (abort_mission s)) = false /\
  is_reset (snd (abort_mission s)) /\
  event_log (snd (abort_mission s))
  = (event_log s ++ [("MISSION ABORT COMMANDED", "ERROR")])%list.
Proof.
  intro Ha. unfold abort_mission. rewrite Ha.
  unfold reset_mission, clear_trajectory, log_event, is_reset. cbn.
  repeat split.
  intros sys flag Hin. apply in_map_iff in Hin.
  destruct Hin as [kv [E _]]. now inversion E.
Qed.

Lemma abort_condition_dec (m : MissionData) :
  abort_condition m <->
  Num.leb (fuel m) 0 = true \/ Num.gtb (temperature m) 100 = true.
Proof.
  unfold abort_condition. now rewrite leb_le, gtb_gt.
Qed.

(** The status check on a running mission: either one of the two abort
    conditions holds, the mission is stopped and reset and the check is left
    by the exception of the reset; or neither holds and the check returns,
    having at most written to the event log. *)
Lemma check_mission_status_cases (s : MissionController) :
  mission_active s = true ->
  (abort_condition (mission_data s) /\
   fst (_check_mission_status s) = Raise AttributeError /\
   mission_active (snd (_check_mission_status s)) = false /\
   is_reset (snd (_check_mission_status s)) /\
   exists added,
     event_log (snd (_check_mission_status s))
     = (event_log s ++ added ++ [("MISSION ABORT COMMANDED", "ERROR")])%list)
  \/
  (~ abort_condition (mission_data s) /\
   fst (_check_mission_status s) = Return tt /\
   same_flight s (snd (_check_mission_status s)) /\
   exists added,
     event_log (snd (_check_mission_status s)) = (event_log s ++ added)%list).
Proof.
  intro Ha. rewrite abort_condition_dec. unfold _check_mission_status.
  destruct (Num.leb (fuel (mission_data s)) 0) eqn:Ef.
  - left. split; [now left|].
    destruct (abort_mission_resets
                (log_event s "CRITICAL: Fuel depleted" "ERROR") Ha)
      as [Hraise [Hoff [Hreset Hlog]]].
    repeat split; try assumption; try apply Hreset.
    exists [("CRITICAL: Fuel depleted", "ERROR")]. rewrite Hlog. cbn.
    now rewrite <- app_assoc.
  - set (s1 := if Num.leb (battery (mission_data s)) 10
               then log_event s "WARNING: Low battery" "WARNING" else s).
    assert (H1 : same_flight s s1 /\
                 exists added, event_log s1 = (event_log s ++ added)%list).
    { subst s1. destruct (Num.leb (battery (mission_data s)) 10).
      - split; [repeat split|]. eexists. reflexivity.
      - split; [repeat split|]. exists []. now rewrite app_nil_r. }
    destruct H1 as [[Hact [Htime [Hdata Hsys]]] [added Hlog]].
    rewrite Hdata.
    destruct (Num.gtb (temperature (mission_data s)) 100) eqn:Et.
    + left. split; [now right|].
      assert (Ha1 : mission_active
                      (log_event s1 "CRITICAL: Temperature critical" "ERROR")
                    = true) by (cbn; congruence).
      destruct (abort_mission_resets _ Ha1) as [Hraise [Hoff [Hreset Hlog1]]].
      repeat split; try assumption; try apply Hreset.
      exists (added ++ [("CRITICAL: Temperature critical", "ERROR")])%list.
      rewrite Hlog1. cbn. rewrite Hlog. now rewrite <- !app_assoc.
    + right. split; [intros [H|H]; discriminate|].
      destruct (_ && _); cbn [fst snd].
      * split; [reflexivity|]. split; [repeat split; cbn; assumption|].
        exists (added ++ [("SUCCESS: Target orbit achieved!", "SUCCESS")])%list.
        cbn. rewrite Hlog. now rewrite app_assoc.
      * split; [reflexivity|]. split; [repeat split; assumption|].
        now exists added.
Qed.

Lemma before_check_active (s : MissionController) (r : float) (pick : nat) :
  mission_active (before_check s r pick) = mission_active s.
Proof.
  unfold before_check, _check_anomalies, _update_physics, with_data.
  cbn [anomaly_chance].
  destruct (Num.ltb r (anomaly_chance s)); [|reflexivity].
  destruct (nth (pick mod 6) anomaly_types ("PROP", "", "WARNING")) as [[? ?] ?].
  reflexivity.
Qed.

(** A tick of a running mission ends as its status check ends, on the state
    [before_check] describes; besides that it only stores a timer. *)
Lemma update_mission_running (s : MissionController) (r : float) (pick : nat) :
  mission_active s = true ->
  let chk := _check_mission_status (before_check s r pick) in
  fst (update_mission s r pick) = fst chk /\
  same_flight (snd chk) (snd (update_mission s r pick)) /\
  flight_of (snd (update_mission s r pick)) = flight_of (snd chk) /\
  event_log (snd (update_mission s r pick)) = event_log (snd chk).
Proof.
  intros Ha chk. subst chk. unfold update_mission, before_check.
  rewrite Ha. cbn [negb]. cbv zeta.
  destruct (_check_mission_status _) as [[[]|e] s4]; cbn [fst snd].
  - unfold same_flight, flight_of.
    destruct (mission_active s4) eqn:E4; cbn; rewrite ?E4; repeat split.
  - repeat split.
Qed.

(** A tick at full thrust with ten units of fuel left burns twenty: the
    mission is stopped and its data are back at their defaults, the tick
    ends in the AttributeError, and the event log is neither cleared nor
    closed by the reset message. *)
Example tick_aborts_when_fuel_runs_out :
  let m := mkData 50 1 10 "PRE-LAUNCH" 1 100 90 30 80 true in
  let s := mkController true 7 0.01 300 7.8 m (systems init) true [] in
  let s' := snd (update_mission s 0.5 0) in
  fst (update_mission s 0.5 0) = Raise AttributeError /\
  mission_active s' = false /\
  mission_data s' = create_default /\
  mission_time s' = 0%Z /\
  event_log s' = [("CRITICAL: Fuel depleted", "ERROR");
                  ("MISSION ABORT COMMANDED", "ERROR")].
Proof. repeat split. Qed.

(** A tick that brings the temperature above 100 aborts as well; a tick
    with a flat battery on the target orbit does not. *)
Example tick_aborts_when_too_hot :
  let hot := mkData 50 1 90 "PRE-LAUNCH" 1 100 90 100 80 true in
  let flat := mkData 300 7.8 90 "ORBIT" 2 0 90 30 5 true in
  let s m := mkController true 7 0.01 300 7.8 m (systems init) true [] in
  fst (update_mission (s hot) 0.5 0) = Raise AttributeError /\
  mission_active (snd (update_mission (s hot) 0.5 0)) = false /\
  fst (update_mission (s flat) 0.5 0) = Return tt /\
  mission_active (snd (update_mission (s flat) 0.5 0)) = true /\
  event_log (snd (update_mission (s flat) 0.5 0))
    = [("WARNING: Low battery", "WARNING");
       ("SUCCESS: Target orbit achieved!", "SUCCESS")].
Proof. repeat split. Qed.

(** The two buttons that reach the orbit display: an abort and a stage
    separation both end in the AttributeError, the first with the mission
    stopped and reset, the second with the stage advanced and logged. *)
Example abort_and_stage_buttons_raise :
  let m := mkData 50 1 60 "PRE-LAUNCH" 1 100 90 30 80 true in
  let s := mkController true 7 0.01 300 7.8 m (systems init) true [] in
  fst (abort_mission s) = Raise AttributeError /\
  mission_active (snd (abort_mission s)) = false /\
  mission_data (snd (abort_mission s)) = create_default /\
  fst (next_stage s) = Raise AttributeError /\
  stage (mission_data (snd (next_stage s))) = 2%Z /\
  event_log (snd (next_stage s)) = [("STAGE SEPARATION CONFIRMED", "SUCCESS")].
Proof. repeat split. Qed.

End MissionFacts.

(** * The mission tick in floats *)

Section TickInFloats.
Import Mission MissionSpec.

Variable round : Q -> Q.

(** With no rounding the rounded tick is the tick of [Mission]. *)
Lemma exact_update_mission (s : MissionController) (r : float) (pick : nat) :
  Rounded.update_mission Rounded.exact s r pick = update_mission s r pick.
Proof. reflexivity. Qed.

(** The status check on a running mission, whatever the rounding of its
    orbit test: either one of the two abort conditions holds, the mission
    is stopped and reset and the check is left by the exception of the
    reset; or neither holds and the check returns, having at most written
    to the event log. *)
Lemma float_check_cases (s : MissionController) :
  mission_active s = true ->
  (abort_condition (mission_data s) /\
   fst (Rounded._check_mission_status round s) = Raise AttributeError /\
   mission_active (snd (Rounded._check_mission_status round s)) = false /\
   is_reset (snd (Rounded._check_mission_status round s)) /\
   exists added,
     event_log (snd (Rounded._check_mission_status round s))
     = (event_log s ++ added ++ [("MISSION ABORT COMMANDED", "ERROR")])%list)
  \/
  (~ abort_condition (mission_data s) /\
   fst (Rounded._check_mission_status round s) = Return tt /\
   same_flight s (snd (Rounded._check_mission_status round s)) /\
   exists added,
     event_log (snd (Rounded._check_mission_status round s))
     = (event_log s ++ added)%list).
Proof.
  intro Ha. rewrite abort_condition_dec. unfold Rounded._check_mission_status.
  destruct (Num.leb (fuel (mission_data s)) 0) eqn:Ef.
  - left. split; [now left|].
    destruct (abort_mission_resets
                (log_event s "CRITICAL: Fuel depleted" "ERROR") Ha)
      as [Hraise [Hoff [Hreset Hlog]]].
    repeat split; try assumption; try apply Hreset.
    exists [("CRITICAL: Fuel depleted", "ERROR")]. rewrite Hlog. cbn.
    now rewrite <- app_assoc.
  - set (s1 := if Num.leb (battery (mission_data s)) 10
               then log_event s "WARNING: Low battery" "WARNING" else s).
    assert (H1 : same_flight s s1 /\
                 exists added, event_log s1 = (event_log s ++ added)%list).
    { subst s1. destruct (Num.leb (battery (mission_data s)) 10).
      - split; [repeat split|]. eexists. reflexivity.
      - split; [repeat split|]. exists []. now rewrite app_nil_r. }
    destruct H1 as [[Hact [Htime [Hdata Hsys]]] [added Hlog]].
    rewrite Hdata.
    destruct (Num.gtb (temperature (mission_data s)) 100) eqn:Et.
    + left. split; [now right|].
      assert (Ha1 : mission_active
                      (log_event s1 "CRITICAL: Temperature critical" "ERROR")
                    = true) by (cbn; congruence).
      destruct (abort_mission_resets _ Ha1) as [Hraise [Hoff [Hreset Hlog1]]].
      repeat split; try assumption; try apply Hreset.
      exists (added ++ [("CRITICAL: Temperature critical", "ERROR")])%list.
      rewrite Hlog1. cbn. rewrite Hlog. now rewrite <- !app_assoc.
    + right. split; [intros [H|H]; discriminate|].
      destruct (_ && _); cbn [fst snd].
      * split; [reflexivity|]. split; [repeat split; cbn; assumption|].
        exists (added ++ [("SUCCESS: Target orbit achieved!", "SUCCESS")])%list.
        cbn. rewrite Hlog. now rewrite app_assoc.
      * split; [reflexivity|]. split; [repeat split; assumption|].
        now exists added.
Qed.

Lemma float_before_check_active (s : MissionController) (r : float)
    (pick : nat) :
  mission_active (float_before_check round s r pick) = mission_active s.
Proof.
  unfold float_before_check, _check_anomalies, Rounded._update_physics,
    with_data.
  cbn [anomaly_chance].
  destruct (Num.ltb r (anomaly_chance s)); [|reflexivity].
  destruct (nth (pick mod 6) anomaly_types ("PROP", "", "WARNING")) as [[? ?] ?].
  reflexivity.
Qed.

Lemma float_update_mission_running (s : MissionController) (r : float)
    (pick : nat) :
  mission_active s = true ->
  let chk :=
    Rounded._check_mission_status round (float_before_check round s r pick) in
  fst (Rounded.update_mission round s r pick) = fst chk /\
  same_flight (snd chk) (snd (Rounded.update_mission round s r pick)) /\
  event_log (snd (Rounded.update_mission round s r pick)) = event_log (snd chk).
Proof.
  intros Ha chk. subst chk. unfold Rounded.update_mission, float_before_check.
  rewrite Ha. cbn [negb]. cbv zeta.
  destruct (Rounded._check_mission_status _ _) as [[[]|e] s4]; cbn [fst snd].
  - unfold same_flight.
    destruct (mission_active s4) eqn:E4; cbn; rewrite ?E4; repeat split.
  - repeat split.
Qed.

(** C5. On a tick of a running mission, with [c] the controller as the
    status check finds it (physics applied in floats, anomaly drawn): the
    mission is inactive after the tick exactly when the fuel of [c] is at
    most 0 or its temperature above 100.  When it is, clock, data and
    system flags have been reset; the tick is then left by the
    AttributeError of [reset_mission], and the state it leaves keeps the
    event log, with the abort message last.  When it is not, the tick
    returns and leaves flight data, clock and system flags as the check
    found them and the mission active, whatever the battery level and
    whether or not the target orbit is reached: those two checks only add
    to the event log.  This holds whatever the rounding of the float
    operations of the tick. *)
Theorem tick_aborts_exactly_on_fuel_or_heat (s : MissionController)
    (r : float) (pick : nat) :
  mission_active s = true ->
  let c := float_before_check round s r pick in
  let s' := snd (Rounded.update_mission round s r pick) in
  (mission_active s' = false <-> abort_condition (mission_data c)) /\
  (abort_condition (mission_data c) ->
   is_reset s' /\
   fst (Rounded.update_mission round s r pick) = Raise AttributeError /\
   exists added,
     event_log s'
     = (event_log c ++ added ++ [("MISSION ABORT COMMANDED", "ERROR")])%list) /\
  (~ abort_condition (mission_data c) ->
   fst (Rounded.update_mission round s r pick) = Return tt /\
   same_flight c s' /\
   exists added, event_log s' = (event_log c ++ added)%list).
Proof.
  intros Ha c s'.
  assert (Hc : mission_active c = true)
    by (subst c; now rewrite float_before_check_active).
  destruct (float_update_mission_running s r pick Ha)
    as [Hfst [[Hact' [Htime' [Hdata' Hsys']]] Hlog']].
  fold c in Hfst, Hact', Htime', Hdata', Hsys', Hlog'.
  fold s' in Hact', Htime', Hdata', Hsys', Hlog'.
  destruct (float_check_cases c Hc)
    as [[Hab [Hraise [Hoff [[Ht [Hd Hs]] [added Hlog]]]]]
       | [Hno [Hret [[Hact [Htime [Hdata Hsys]]] [added Hlog]]]]].
  - split; [split; [intros _; exact Hab | intros _; congruence]|].
    split; [|intro H; contradiction].
    intros _. split; [|split].
    + unfold is_reset. rewrite Htime', Hdata', Hsys'. repeat split; assumption.
    + congruence.
    + exists added. congruence.
  - split; [split; [intro H; congruence | intro H; contradiction]|].
    split; [intro H; contradiction|].
    intros _. split; [congruence|]. split.
    + unfold same_flight. repeat split; congruence.
    + exists added. congruence.
Qed.

End TickInFloats.

(** C5 in binary64 on a tick at full thrust with ten units of fuel left:
    the tick burns twenty, so the check finds the fuel at -10; the mission
    is stopped and reset, and the tick is left by the AttributeError. *)
Lemma tick_aborts_exactly_on_fuel_or_heat_witness :
  let m := Mission.mkData 50 1 10 "PRE-LAUNCH" 1 100 90 30 80 true in
  let s :=
    Mission.mkController true 7 (Rounded.binary64 0.01) 300 (Rounded.binary64 7.8)
      m (Mission.systems Mission.init) true [] in
  let c := MissionSpec.float_before_check Rounded.binary64 s 0.5 0 in
  let s' := snd (Rounded.update_mission Rounded.binary64 s 0.5 0) in
  Mission.fuel (Mission.mission_data c) == -10 /\
  Mission.mission_active s' = false /\
  MissionSpec.is_reset s' /\
  fst (Rounded.update_mission Rounded.binary64 s 0.5 0) = Raise AttributeError /\
  exists added,
    Mission.event_log s'
    = (Mission.event_log c ++ added
       ++ [("MISSION ABORT COMMANDED", "ERROR")])%list.
Proof.
  intros m s c s'.
  assert (Hfuel : Mission.fuel (Mission.mission_data c) == -10)
    by (vm_compute; reflexivity).
  assert (Hab : MissionSpec.abort_condition (Mission.mission_data c)).
  { left. rewrite Hfuel. intro H. discriminate H. }
  destruct (tick_aborts_exactly_on_fuel_or_heat Rounded.binary64 s 0.5 0 eq_refl)
    as [Hiff [Habort _]].
  destruct (Habort Hab) as [Hreset [Hraise Hlog]].
  split; [exact Hfuel|]. split; [exact (proj2 Hiff Hab)|].
  split; [exact Hreset|]. split; [exact Hraise | exact Hlog].
Defined.

(** A tick at thrust 0.7 with 0.14 units of fuel left.  Without rounding
    the tick burns 0.7 * 0.2 = 0.14, the fuel is 0 and the mission is
    aborted.  In binary64 the product is 0.13999999999999999, the fuel
    left is positive, and the mission goes on. *)
Example fuel_boundary_in_binary64 :
  let b64 := Rounded.binary64 in
  let state fuel thrust :=
    Mission.mkController true 7 0.01 300 7.8
      (Mission.mkData 50 1 fuel "PRE-LAUNCH" 1 thrust 90 30 80 true)
      (Mission.systems Mission.init) true [] in
  fst (Mission.update_mission (state 0.14 0.7) 0.5 0) = Raise AttributeError /\
  Mission.mission_active (snd (Mission.update_mission (state 0.14 0.7) 0.5 0))
  = false /\
  fst (Rounded.update_mission b64 (state (b64 0.14) (b64 0.7)) 0.5 0)
  = Return tt /\
  Mission.mission_active
    (snd (Rounded.update_mission b64 (state (b64 0.14) (b64 0.7)) 0.5 0))
  = true /\
  0 < Mission.fuel
        (Mission.mission_data
           (snd (Rounded.update_mission b64 (state (b64 0.14) (b64 0.7)) 0.5 0))).
Proof. vm_compute. repeat split. Qed.

(** * Flights *)

Section FlightFacts.
Import Mission MissionSpec.

Lemma py_max_ge_l (a b : float) : a <= Num.py_max a b.
Proof.
  unfold Num.py_max. destruct (Num.gtb b a) eqn:E.
  - apply gtb_gt in E. now apply Qlt_le_weak.
  - apply Qle_refl.
Qed.

Lemma py_max_lub (a b c : float) : a <= c -> b <= c -> Num.py_max a b <= c.
Proof. intros Ha Hb. unfold Num.py_max. destruct (Num.gtb b a); assumption. Qed.

(** ** The thrust lever *)

(** On a running mission [adjust_thrust] leaves the thrust between 0 and
    100 whatever the step and the thrust before, moves it by exactly the
    step when that stays in range, and changes nothing else of the flight;
    on an idle mission it does nothing. *)
Theorem adjust_thrust_clamps (s : MissionController) (delta : float) :
  let m := mission_data s in
  let m' := mission_data (adjust_thrust s delta) in
  (mission_active s = true ->
   0 <= thrust m' <= 100 /\
   (0 <= thrust m + delta <= 100 -> thrust m' == thrust m + delta) /\
   (altitude m', velocity m', fuel m', stage m', temperature m', battery m')
   = (altitude m, velocity m, fuel m, stage m, temperature m, battery m) /\
   mission_active (adjust_thrust s delta) = true) /\
  (mission_active s = false -> adjust_thrust s delta = s).
Proof.
  intros m m'. subst m'. unfold adjust_thrust. split; intro Ha; rewrite Ha.
  - cbn. fold m. repeat split.
    + apply py_max_ge_l.
    + apply py_max_lub; [lra | apply py_min_le_l].
    + intros [Hlo Hhi]. unfold Num.py_max, Num.py_min, Num.gtb.
      destruct (Num.ltb (thrust m + delta) 100) eqn:E1.
      * destruct (Num.ltb 0 (thrust m + delta)) eqn:E2; [reflexivity|].
        apply ltb_ge in E2. lra.
      * apply ltb_ge in E1. change (Num.ltb 0 100) with true. cbv iota. lra.
    + exact Ha.
  - reflexivity.
Qed.

(** Full thrust plus ten stays at 100. *)
Lemma adjust_thrust_clamps_witness :
  let m := mkData 50 1 60 "PRE-LAUNCH" 1 100 90 30 80 true in
  let s := mkController true 7 0.01 300 7.8 m (systems init) true [] in
  0 <= thrust (mission_data (adjust_thrust s 10)) <= 100 /\
  thrust (mission_data (adjust_thrust s (-10))) == 90.
Proof.
  intros m s.
  destruct (proj1 (adjust_thrust_clamps s 10) eq_refl) as [Hrange _].
  destruct (proj1 (adjust_thrust_clamps s (-10)) eq_refl) as [_ [Hstep _]].
  split; [exact Hrange|].
  rewrite Hstep; [reflexivity|]. split; intro H; discriminate H.
Defined.

(** ** The flight envelope *)









(** The outcomes of the commands of that flight, one by one. *)
Example flight_outcomes :
  let commands :=
    ([Launch 0.5 0; Stage] ++ repeat (Thrust 10) 10
     ++ repeat (Tick 0.5 0) 12 ++ [Stage; Tick 0.001 3])%list in
  let outcomes :=
    snd (fold_left
           (fun acc c => (exec (fst acc) c,
                          (snd acc ++ [fst (perform (fst acc) c)])%list))
           commands (init, [])) in
  outcomes
  = ([Return tt; Raise AttributeError] ++ repeat (Return tt) 10
     ++ repeat (Return tt) 9 ++ [Raise AttributeError]
     ++ repeat (Return tt) 4)%list /\
  mission_active (fly init commands) = false /\
  mission_data (fly init commands) = create_default.
Proof. vm_compute. repeat split. Qed.

(** ** Anomalies *)

Lemma check_reads_flight (s1 s2 : MissionController) :
  flight_of s1 = flight_of s2 ->
  fst (_check_mission_status s1) = fst (_check_mission_status s2) /\
  flight_of (snd (_check_mission_status s1))
  = flight_of (snd (_check_mission_status s2)).
Proof.
  destruct s1 as [a1 t1 c1 ta1 tv1 m1 sy1 u1 l1].
  destruct s2 as [a2 t2 c2 ta2 tv2 m2 sy2 u2 l2].
  unfold flight_of. cbn. intro E. inversion E; subst. clear E.
  unfold _check_mission_status, abort_mission, reset_mission, clear_trajectory,
    log_event. cbn.
  destruct (Num.leb (fuel m2) 0); [destruct a2; split; reflexivity|].
  destruct (Num.leb (battery m2) 10); cbn;
    (destruct (Num.gtb (temperature m2) 100);
     [destruct a2; split; reflexivity|]);
    destruct (_ && _); split; reflexivity.
Qed.

Lemma anomalies_keep_flight (s : MissionController) (r : float) (pick : nat) :
  flight_of (_check_anomalies s r pick) = flight_of s.
Proof.
  unfold _check_anomalies.
  destruct (Num.ltb r (anomaly_chance s)); [|reflexivity].
  destruct (nth (pick mod 6) anomaly_types ("PROP", "", "WARNING")) as [[? ?] ?].
  reflexivity.
Qed.

(** The random draws of a tick never reach the flight: whether the tick
    returns or raises, whether the mission goes on, its clock and its
    flight data are, in the state the tick leaves, the same for every
    outcome of the anomaly check.  A failed system changes nothing but its
    flag and the event log. *)
Theorem anomalies_never_change_the_flight (s : MissionController)
    (r r' : float) (pick pick' : nat) :
  fst (update_mission s r pick) = fst (update_mission s r' pick') /\
  flight_of (snd (update_mission s r pick))
  = flight_of (snd (update_mission s r' pick')).
Proof.
  destruct (mission_active s) eqn:Ha.
  2:{ unfold update_mission. rewrite Ha. split; reflexivity. }
  destruct (update_mission_running s r pick Ha) as [Hfst [_ [Hfl _]]].
  destruct (update_mission_running s r' pick' Ha) as [Hfst' [_ [Hfl' _]]].
  rewrite Hfst, Hfst', Hfl, Hfl'.
  apply check_reads_flight. unfold before_check.
  now rewrite !anomalies_keep_flight.
Qed.

(** A tick at full thrust with ten units of fuel left, once without and
    once with a communication anomaly: both raise and leave the same
    flight. *)
Example anomaly_on_an_aborting_tick :
  let m := mkData 50 1 10 "PRE-LAUNCH" 1 100 90 30 80 true in
  let s := mkController true 7 0.01 300 7.8 m (systems init) true [] in
  fst (update_mission s 0.5 0) = Raise AttributeError /\
  fst (update_mission s 0.001 3) = Raise AttributeError /\
  flight_of (snd (update_mission s 0.5 0))
  = flight_of (snd (update_mission s 0.001 3)) /\
  event_log (snd (update_mission s 0.001 3))
  = [("Communication signal degradation", "WARNING");
     ("CRITICAL: Fuel depleted", "ERROR");
     ("MISSION ABORT COMMANDED", "ERROR")].
Proof. repeat split. Qed.

(** While the mission goes on no system recovers: after a tick that leaves
    the mission running, a system that had failed is still failed, and a
    system that works worked before.  Such a tick has returned: the ticks
    that raise leave the mission stopped. *)
Theorem failed_systems_stay_failed (s : MissionController) (r : float)
    (pick : nat) (sys : string) :
  mission_active (snd (update_mission s r pick)) = true ->
  (Dict.get sys (systems s) = Some false ->
   Dict.get sys (systems (snd (update_mission s r pick))) = Some false) /\
  (Dict.get sys (systems (snd (update_mission s r pick))) = Some true ->
   Dict.get sys (systems s) = Some true) /\
  fst (update_mission s r pick) = Return tt.
Proof.
  intro Hon. destruct (mission_active s) eqn:Ha.
  2:{ unfold update_mission in *. rewrite Ha in *. cbn in *. congruence. }
  destruct (update_mission_running s r pick Ha)
    as [Hfst [[Hact' [_ [_ Hsys']]] _]].
  rewrite Hsys', Hfst. rewrite Hact' in Hon.
  assert (Hc : mission_active (before_check s r pick) = true)
    by now rewrite before_check_active.
  destruct (check_mission_status_cases _ Hc)
    as [[_ [_ [Hoff _]]] | [_ [Hret [[Hact [_ [_ Hsys]]] _]]]].
  - rewrite Hoff in Hon. congruence.
  - rewrite Hsys, Hret.
    cut ((Dict.get sys (systems s) = Some false ->
          Dict.get sys (systems (before_check s r pick)) = Some false) /\
         (Dict.get sys (systems (before_check s r pick)) = Some true ->
          Dict.get sys (systems s) = Some true)); [tauto|].
    unfold before_check, _check_anomalies, _update_physics, with_data.
    cbn [anomaly_chance].
    destruct (Num.ltb r (anomaly_chance s)); [|cbn; tauto].
    destruct (nth (pick mod 6) anomaly_types ("PROP", "", "WARNING"))
      as [[failed ?] ?].
    unfold log_event. cbn [systems].
    destruct (String.eqb_spec sys failed) as [->|Hne].
    + rewrite get_set_same. split; [reflexivity | discriminate].
    + rewrite (get_set_other _ _ _ _ Hne). tauto.
Qed.

(** A tick at quarter thrust on which the guidance system fails: the
    propulsion flag that was down stays down. *)
Lemma failed_systems_stay_failed_witness :
  let m := mkData 50 1 60 "PRE-LAUNCH" 1 25 90 30 80 true in
  let s :=
    mkController true 7 0.01 300 7.8 m
      (Dict.set "PROP" false (systems init)) true [] in
  Dict.get "PROP" (systems (snd (update_mission s 0.001 1))) = Some false /\
  Dict.get "GUID" (systems (snd (update_mission s 0.001 1))) = Some false /\
  fst (update_mission s 0.001 1) = Return tt.
Proof.
  intros m s.
  destruct (failed_systems_stay_failed s 0.001 1 "PROP" eq_refl)
    as [Hdown [_ Hret]].
  split; [exact (Hdown eq_refl)|]. split; [reflexivity | exact Hret].
Defined.

End FlightFacts.
